(** * The Apocalyptic Shadow card of hoyo-buddy

    A shallow embedding of [hoyo_buddy/draw/funcs/hoyo/hsr/apc_shadow.py]
    (class [APCShadowCard]) and the properties of its layout code.

    Python integers are [Z], [str] is [string], lists are [list].  An image
    is represented by the drawing operations that built it: the raster and
    text engines (PIL, [Drawer]) live outside the module, so a surface is the
    term of calls that produced it and two surfaces are the same when they
    were built by the same calls on the same arguments.  What the engines
    measure (text boxes, asset sizes) and what the translation layer answers
    are parameters of the development. *)

From Stdlib Require Import ZArith List Lia.
From stdpp Require Import gmap strings list fin_maps pretty.
Import ListNotations.

Open Scope Z_scope.

(** ** Data model *)

(** [hoyo_buddy.enums.Locale]: the enumeration is declared outside this
    module; a locale is identified by its code. *)
Definition Locale := string.

(** [WHITE] and [TRANSPARENT] of [hoyo_buddy.draw.drawer]. *)
Inductive Color : Type :=
| WHITE
| TRANSPARENT.

(** The time stamps of a season; only [strftime] reads them. *)
Definition PartialTime := Z.

(** [genshin.models.starrail.FloorCharacter], the attributes the card reads. *)
Record FloorCharacter : Type := {
  icon : string;
  level : Z;
  rank : Z
}.

(** A node of a floor: [score], [boss_defeated], [avatars]. *)
Record FloorNode : Type := {
  score : Z;
  boss_defeated : bool;
  avatars : list FloorCharacter
}.

(** [genshin.models.starrail.APCShadowFloor]; the floor's own [name] and
    [score] are [floor_name] and [floor_score] here. *)
Record APCShadowFloor : Type := {
  floor_name : string;
  floor_score : Z;
  star_num : Z;
  is_quick_clear : bool;
  node_1 : FloorNode;
  node_2 : FloorNode
}.

(** The address of a Python list object. *)
Definition loc := positive.

(** The list objects of the interpreter that hold floors.  A list is
    shared through its address: [reverse()] on one name is seen through
    every other name of the same object. *)
Abbreviation store := (gmap loc (list APCShadowFloor)).

(** [genshin.models.starrail.StarRailAPCShadow]; [floors] names a list
    object of the store. *)
Record StarRailAPCShadow : Type := {
  total_stars : Z;
  total_battles : Z;
  max_floor : string;
  floors : loc
}.

(** [genshin.models.starrail.StarRailChallengeSeason]. *)
Record StarRailChallengeSeason : Type := {
  season_name : string;
  begin_time : PartialTime;
  end_time : PartialTime
}.

(** The attributes set by [APCShadowCard.__init__]. *)
Record APCShadowCard : Type := {
  _data : StarRailAPCShadow;
  _season : StarRailChallengeSeason;
  _locale : Locale;
  _uid : option Z
}.

(** ** Text *)

(** A keyword argument of a [LocaleStr]: the card passes strings and
    integers. *)
Inductive Param : Type :=
| PStr (s : string)
| PInt (n : Z).

(** [LocaleStr(key=..., **params)]. *)
Record LocaleStr : Type := {
  key : string;
  params : list (string * Param)
}.

(** The first argument of [Drawer.write]: [str | LocaleStr]. *)
Inductive Text : Type :=
| TStr (s : string)
| TLocale (l : LocaleStr).

(** The arguments of one [Drawer.write] call; an argument left out in the
    call is [None]. *)
Record WriteCall : Type := {
  w_text : Text;
  w_size : Z;
  w_position : Z * Z;
  w_style : option string;
  w_anchor : option string;
  w_color : option Color;
  w_locale : option Locale
}.

(** [Drawer(ImageDraw.Draw(im), folder=..., dark_mode=...)]; the image it
    draws on is passed to each operation. *)
Record Drawer : Type := {
  folder : string;
  dark_mode : bool
}.

(** The box returned by [Drawer.write]: [(x0, y0, x1, y1)]. *)
Definition TextBBox := (Z * Z * Z * Z)%type.

(** [tbox[2]]. *)
Definition item2 (tbox : TextBBox) : Z :=
  let '(_, _, x1, _) := tbox in x1.

(** ** Surfaces *)

(** A surface as the history of the calls that built it.  [paste], [write]
    and [write_uid] act on the surface in their first argument, which Python
    updates in place. *)
#[warnings="-register-all"] Inductive Image : Type :=
| open_image (file_path : string)
| open_static (url : string)
| open_asset (d : Drawer) (filename : string)
| new (mode : string) (size : Z * Z) (color : Color)
| resize_crop (im : Image) (size : Z * Z)
| mask_image_with_image (im mask : Image)
| paste (im src : Image) (box : Z * Z) (mask : option Image)
| write (im : Image) (d : Drawer) (c : WriteCall)
| write_uid (im : Image) (uid : option Z).

(** [Drawer.save_image]. *)
Inductive BytesIO : Type :=
| save_image (im : Image).

(** One [paste] onto a surface. *)
Record Pasted : Type := {
  p_src : Image;
  p_box : Z * Z;
  p_mask : option Image
}.

(** The surface a canvas started from. *)
Fixpoint canvas_base (im : Image) : Image :=
  match im with
  | paste im' _ _ _ => canvas_base im'
  | write im' _ _ => canvas_base im'
  | write_uid im' _ => canvas_base im'
  | _ => im
  end.

(** The pastes made onto a canvas, oldest first. *)
Fixpoint canvas_pastes (im : Image) : list Pasted :=
  match im with
  | paste im' src box mask =>
      canvas_pastes im' ++ [{| p_src := src; p_box := box; p_mask := mask |}]
  | write im' _ _ => canvas_pastes im'
  | write_uid im' _ => canvas_pastes im'
  | _ => []
  end.

(** The [write] calls made on a canvas, oldest first. *)
Fixpoint canvas_writes (im : Image) : list WriteCall :=
  match im with
  | paste im' _ _ _ => canvas_writes im'
  | write im' _ c => canvas_writes im' ++ [c]
  | write_uid im' _ => canvas_writes im'
  | _ => []
  end.

(** Pasting a list of sources, in order. *)
Definition paste_all (im : Image) (ps : list Pasted) : Image :=
  fold_left (fun im p => paste im (p_src p) (p_box p) (p_mask p)) ps im.

(** ** Python helpers *)

(** [str(n)] and [f"{n}"] for an integer. *)
Definition str (n : Z) : string := pretty n.

(** [range(n)]: empty when [n <= 0]. *)
Definition range (n : Z) : list Z :=
  map Z.of_nat (seq 0 (Z.to_nat n)).

(** [enumerate(l)]. *)
Definition enumerate {A : Type} (l : list A) : list (Z * A) :=
  combine (map Z.of_nat (seq 0 (length l))) l.

(** [l[i]] inside [try ... except IndexError]: [None] stands for the
    exception.  A negative index counts from the end. *)
Definition getitem {A : Type} (l : list A) (i : Z) : option A :=
  let n := Z.of_nat (length l) in
  if (0 <=? i) && (i <? n) then nth_error l (Z.to_nat i)
  else if (i <? 0) && (0 <=? n + i) then nth_error l (Z.to_nat (n + i))
  else None.

(** A [for] loop over [l] whose body updates the loop state. *)
Definition for_in {A S : Type} (l : list A) (body : A -> S -> S) (s : S) : S :=
  fold_left (fun s a => body a s) l s.

(** Code that reads and updates list objects: it runs on a store and
    returns its result with the store it leaves, or nothing when it follows
    an address that names no list. *)
Definition M (A : Type) : Type := store -> option (A * store).

#[global] Instance M_ret : MRet M :=
  fun A a st => Some (a, st).

#[global] Instance M_bind : MBind M :=
  fun A B k m st =>
    match m st with
    | Some (a, st') => k a st'
    | None => None
    end.

(** Reading the list at an address: [len], iteration. *)
Definition list_read (r : loc) : M (list APCShadowFloor) :=
  fun st =>
    match st !! r with
    | Some l => Some (l, st)
    | None => None
    end.

(** A list display or comprehension: a new list object. *)
Definition list_new (l : list APCShadowFloor) : M loc :=
  fun st =>
    let r := fresh (dom st) in
    Some (r, <[r := l]> st).

(** [r.reverse()]: the object at [r] is reversed in place. *)
Definition list_reverse (r : loc) : M unit :=
  fun st =>
    match st !! r with
    | Some l => Some (tt, <[r := rev l]> st)
    | None => None
    end.

(** ** The card *)

(** The collaborators the module imports: the translation layer, the
    difficulty lookup, the clock formatting, and the measures of the text
    and raster engines.  Each is a function of its arguments. *)
Class Collaborators : Type := {
  (** [LocaleStr.translate(locale)]. *)
  translate : LocaleStr -> Locale -> string;
  (** [hoyo_buddy.utils.get_floor_difficulty(floor_name, season_name)]. *)
  get_floor_difficulty : string -> string -> string;
  (** [t.datetime.strftime(fmt)]. *)
  strftime : PartialTime -> string -> string;
  (** The box [Drawer.write] returns for a call. *)
  textbbox : Drawer -> WriteCall -> TextBBox;
  (** [im.width] and [im.height]. *)
  width : Image -> Z;
  height : Image -> Z
}.

Section Card.

Context `{Collaborators}.

(** [drawer.write(...)] on the surface [im]: the updated surface and the
    box of the text. *)
Definition Drawer_write (d : Drawer) (im : Image) (c : WriteCall)
  : Image * TextBBox :=
  (write im d c, textbbox d c).

Definition apc_drawer : Drawer :=
  {| folder := "apc-shadow"; dark_mode := true |}.

(** [APCShadowCard._draw_block]. *)
Definition _draw_block (self : APCShadowCard) (chara : option FloorCharacter)
  : Image :=
  let block := open_image "hoyo-buddy-assets/assets/apc-shadow/block.png" in
  match chara with
  | None =>
      let empty := open_image "hoyo-buddy-assets/assets/apc-shadow/empty.png" in
      let block := paste block empty (28, 28) (Some empty) in
      block
  | Some chara =>
      let drawer := apc_drawer in
      let icon := open_static (icon chara) in
      let icon := resize_crop icon (120, 120) in
      let mask := open_asset drawer "mask.png" in
      let icon := mask_image_with_image icon mask in
      let block := paste block icon (0, 0) (Some icon) in
      let level_flair := open_asset drawer "level_flair.png" in
      let level_flair_pos := (0, 97) in
      let block := paste block level_flair level_flair_pos (Some level_flair) in
      let '(block, _) :=
        Drawer_write drawer block
          {| w_text := TStr ("Lv." +:+ str (level chara));
             w_size := 18;
             w_position :=
               (fst level_flair_pos + width level_flair / 2,
                snd level_flair_pos + height level_flair / 2);
             w_style := Some "bold";
             w_anchor := Some "mm";
             w_color := Some WHITE;
             w_locale := None |} in
      let const_flair := open_asset drawer "const_flair.png" in
      let const_flair_pos := (91, 0) in
      let block := paste block const_flair const_flair_pos (Some const_flair) in
      let '(block, _) :=
        Drawer_write drawer block
          {| w_text := TStr (str (rank chara));
             w_size := 18;
             w_position :=
               (fst const_flair_pos + width const_flair / 2,
                snd const_flair_pos + height const_flair / 2);
             w_style := Some "bold";
             w_anchor := Some "mm";
             w_color := Some WHITE;
             w_locale := None |} in
      block
  end.

(** [APCShadowCard._draw_stage]. *)
Definition _draw_stage (self : APCShadowCard) (stage : APCShadowFloor)
  : Image :=
  let im := new "RGBA" (639, 421) TRANSPARENT in
  let drawer := apc_drawer in
  let stage_name :=
    get_floor_difficulty (floor_name stage) (season_name (_season self)) in
  let '(im, name_tbox) :=
    Drawer_write drawer im
      {| w_text := TStr stage_name;
         w_size := 44;
         w_position := (0, 0);
         w_style := Some "bold";
         w_anchor := None;
         w_color := Some WHITE;
         w_locale := Some (_locale self) |} in
  let '(im, score_tbox) :=
    Drawer_write drawer im
      {| w_text :=
           TLocale
             {| key := "pf_card_total_score";
                params :=
                  [("score",
                    if negb (is_quick_clear stage)
                    then PStr (str (score (node_1 stage)) +:+ "+"
                               +:+ str (score (node_2 stage)) +:+ "="
                               +:+ str (floor_score stage))
                    else PInt 8000)] |};
         w_size := 25;
         w_position := (0, 60);
         w_style := Some "medium";
         w_anchor := None;
         w_color := Some WHITE;
         w_locale := Some (_locale self) |} in
  let rightmost := Z.max (item2 name_tbox) (item2 score_tbox) in
  let line := open_asset drawer "line.png" in
  let padding := 26 in
  let im := paste im line (rightmost + padding, 10) None in
  let star := open_asset drawer "star.png" in
  let pos := (rightmost + padding + 37, 0) in
  let '(im, pos) :=
    for_in (range (star_num stage))
      (fun _ '(im, pos) =>
         let im := paste im star pos None in
         let pos := (fst pos + 62, snd pos) in
         (im, pos))
      (im, pos) in
  let defeated_text :=
    translate {| key := "apc_shadow.boss_defeated"; params := [] |}
      (_locale self) in
  let not_defeated_text :=
    translate {| key := "apc_shadow.boss_defeated_no"; params := [] |}
      (_locale self) in
  let quick_clear_text :=
    translate {| key := "moc_quick_clear"; params := [] |} (_locale self) in
  let text :=
    if is_quick_clear stage then quick_clear_text
    else if boss_defeated (node_1 stage) && boss_defeated (node_2 stage)
    then defeated_text
    else if negb (boss_defeated (node_1 stage))
            && negb (boss_defeated (node_2 stage))
    then not_defeated_text
    else defeated_text +:+ " / " +:+ not_defeated_text in
  let '(im, _) :=
    Drawer_write drawer im
      {| w_text := TStr text;
         w_size := 25;
         w_position := (rightmost + padding + 37, 60);
         w_style := None;
         w_anchor := None;
         w_color := Some WHITE;
         w_locale := Some (_locale self) |} in
  let characters := avatars (node_1 stage) ++ avatars (node_2 stage) in
  let pos := (0, 135) in
  let '(im, pos) :=
    for_in (range 8)
      (fun i '(im, pos) =>
         let chara := getitem characters i in
         let block := _draw_block self chara in
         let im := paste im block pos (Some block) in
         let pos := (fst pos + 172, snd pos) in
         let pos := if i =? 3 then (0, 301) else pos in
         (im, pos))
      (im, pos) in
  im.

(** The header writers; each draws on the card's canvas [self._im]. *)

Definition _write_title (self : APCShadowCard) (im : Image) : Image :=
  fst (Drawer_write apc_drawer im
         {| w_text := TStr (season_name (_season self));
            w_size := 80;
            w_position := (76, 75);
            w_style := Some "bold";
            w_anchor := None;
            w_color := None;
            w_locale := Some (_locale self) |}).

Definition _write_season_time (self : APCShadowCard) (im : Image) : Image :=
  let text :=
    strftime (begin_time (_season self)) "%Y/%m/%d" +:+ " ~ "
    +:+ strftime (end_time (_season self)) "%Y/%m/%d" in
  fst (Drawer_write apc_drawer im
         {| w_text := TStr text;
            w_size := 36;
            w_position := (76, 197);
            w_style := Some "medium";
            w_anchor := None;
            w_color := None;
            w_locale := None |}).

Definition _write_max_stars (self : APCShadowCard) (im : Image) : Image :=
  fst (Drawer_write apc_drawer im
         {| w_text := TStr (str (total_stars (_data self)));
            w_size := 50;
            w_position := (193, 374);
            w_style := Some "medium";
            w_anchor := Some "mm";
            w_color := None;
            w_locale := None |}).

Definition _write_farthest_stage (self : APCShadowCard) (im : Image) : Image :=
  fst (Drawer_write apc_drawer im
         {| w_text :=
              TLocale
                {| key := "apc_shadow.highest_diff_cleared";
                   params :=
                     [("diff",
                       PStr (get_floor_difficulty (max_floor (_data self))
                               (season_name (_season self))))] |};
            w_size := 25;
            w_position := (303, 340);
            w_style := None;
            w_anchor := None;
            w_color := None;
            w_locale := Some (_locale self) |}).

Definition _write_times_challenged (self : APCShadowCard) (im : Image)
  : Image :=
  fst (Drawer_write apc_drawer im
         {| w_text :=
              TLocale
                {| key := "apc_shadow.times_challenged";
                   params := [("times", PInt (total_battles (_data self)))] |};
            w_size := 25;
            w_position := (303, 374);
            w_style := None;
            w_anchor := None;
            w_color := None;
            w_locale := Some (_locale self) |}).

(** [HSRChallengeUIDMixin._write_uid]. *)
Definition _write_uid (self : APCShadowCard) (im : Image) : Image :=
  write_uid im (_uid self).

(** The body of [APCShadowCard.draw] once [stages] is built: the canvas
    [self._im] handed to [Drawer.save_image]. *)
Definition draw_canvas (self : APCShadowCard) (stages : list APCShadowFloor)
  : Image :=
  let filename :=
    if Z.of_nat (length stages) <=? 2
    then "apc_shadow_short.png" else "apc_shadow.png" in
  let im := open_image ("hoyo-buddy-assets/assets/apc-shadow/" +:+ filename) in
  let im := _write_title self im in
  let im := _write_season_time self im in
  let im := _write_max_stars self im in
  let im := _write_farthest_stage self im in
  let im := _write_times_challenged self im in
  let im := _write_uid self im in
  let pos := (83, 482) in
  let '(im, pos) :=
    for_in (enumerate stages)
      (fun '(i, stage) '(im, pos) =>
         let stage_im := _draw_stage self stage in
         let im := paste im stage_im pos (Some stage_im) in
         let pos := (fst pos + 779, snd pos) in
         let pos := if i =? 1 then (83, 980) else pos in
         (im, pos))
      (im, pos) in
  im.

(** [APCShadowCard.draw]: the comprehension over [self._data.floors]
    builds the list [stages], [stages.reverse()] reverses it in place, and
    the canvas is drawn from it. *)
Definition draw (self : APCShadowCard) : M BytesIO :=
  fl ← list_read (floors (_data self));
  stages ← list_new (List.filter (fun f => negb (is_quick_clear f)) fl);
  _ ← list_reverse stages;
  stages_now ← list_read stages;
  mret (save_image (draw_canvas self stages_now)).

End Card.

(** The surface inside a saved stream. *)
Definition saved (b : BytesIO) : Image :=
  match b with save_image im => im end.

(** ** Blocks drawn on image objects

    In Python a surface is an object that [paste] and [write] change in
    place, and [_draw_block] works on objects handed out by the engines.
    Here the engines are operations on a world of image objects: what an
    object holds is read by [content], and nothing is said of how an engine
    picks the object it returns, of what it keeps between calls, or of
    what else it touches. *)
Class ImageEngine : Type := {
  World : Type;
  (** The surface an object holds, when the address names an object. *)
  content : World -> loc -> option Image;
  (** [Drawer.open_image(path)]. *)
  open_image_st : string -> World -> loc * World;
  (** [drawer.open_static(url)]. *)
  open_static_st : string -> World -> loc * World;
  (** [drawer.open_asset(filename)]. *)
  open_asset_st : Drawer -> string -> World -> loc * World;
  (** [drawer.resize_crop(im, size)]. *)
  resize_crop_st : loc -> Z * Z -> World -> loc * World;
  (** [drawer.mask_image_with_image(im, mask)]. *)
  mask_image_with_image_st : loc -> loc -> World -> loc * World;
  (** [im.paste(src, box, mask)]. *)
  paste_st : loc -> loc -> Z * Z -> option loc -> World -> World;
  (** [drawer.write(...)] of a drawer made on the object [im]. *)
  write_st : Drawer -> loc -> WriteCall -> World -> TextBBox * World;
  (** [im.width] and [im.height]. *)
  width_st : loc -> World -> Z;
  height_st : loc -> World -> Z
}.

Section BlockObjects.

Context `{ImageEngine}.

(** [APCShadowCard._draw_block] on image objects: the object it returns,
    and the world it leaves. *)
Definition _draw_block_st (self : APCShadowCard)
    (chara : option FloorCharacter) (w : World) : loc * World :=
  let '(block, w) :=
    open_image_st "hoyo-buddy-assets/assets/apc-shadow/block.png" w in
  match chara with
  | None =>
      let '(empty, w) :=
        open_image_st "hoyo-buddy-assets/assets/apc-shadow/empty.png" w in
      let w := paste_st block empty (28, 28) (Some empty) w in
      (block, w)
  | Some chara =>
      let drawer := apc_drawer in
      let '(icon, w) := open_static_st (icon chara) w in
      let '(icon, w) := resize_crop_st icon (120, 120) w in
      let '(mask, w) := open_asset_st drawer "mask.png" w in
      let '(icon, w) := mask_image_with_image_st icon mask w in
      let w := paste_st block icon (0, 0) (Some icon) w in
      let '(level_flair, w) := open_asset_st drawer "level_flair.png" w in
      let level_flair_pos := (0, 97) in
      let w :=
        paste_st block level_flair level_flair_pos (Some level_flair) w in
      let '(_, w) :=
        write_st drawer block
          {| w_text := TStr ("Lv." +:+ str (level chara));
             w_size := 18;
             w_position :=
               (fst level_flair_pos + width_st level_flair w / 2,
                snd level_flair_pos + height_st level_flair w / 2);
             w_style := Some "bold";
             w_anchor := Some "mm";
             w_color := Some WHITE;
             w_locale := None |} w in
      let '(const_flair, w) := open_asset_st drawer "const_flair.png" w in
      let const_flair_pos := (91, 0) in
      let w :=
        paste_st block const_flair const_flair_pos (Some const_flair) w in
      let '(_, w) :=
        write_st drawer block
          {| w_text := TStr (str (rank chara));
             w_size := 18;
             w_position :=
               (fst const_flair_pos + width_st const_flair w / 2,
                snd const_flair_pos + height_st const_flair w / 2);
             w_style := Some "bold";
             w_anchor := Some "mm";
             w_color := Some WHITE;
             w_locale := None |} w in
      (block, w)
  end.



End BlockObjects.


(** An engine that keeps its objects in a map and makes a new object for
    each surface it returns. *)
Definition heap_alloc (c : Image) (w : gmap loc Image)
  : loc * gmap loc Image :=
  let l := fresh (dom w) in (l, <[l := c]> w).

Definition heap_paste (d s : loc) (box : Z * Z) (m : option loc)
    (w : gmap loc Image) : gmap loc Image :=
  match w !! d, w !! s with
  | Some cd, Some cs => <[d := paste cd cs box (m ≫= (w !!.))]> w
  | _, _ => w
  end.

Definition heap_write `{Collaborators} (d : Drawer) (l : loc) (c : WriteCall)
    (w : gmap loc Image) : TextBBox * gmap loc Image :=
  (textbbox d c,
   match w !! l with
   | Some cl => <[l := write cl d c]> w
   | None => w
   end).


(** The same engine with a cache in front of [Drawer.open_image]: a path
    opened before gives the object made for it then.  The world is the
    cache and the objects. *)
Definition cached_engine `{Collaborators} : ImageEngine := {|
  World := gmap string loc * gmap loc Image;
  content := fun w l => snd w !! l;
  open_image_st := fun path w =>
    match fst w !! path with
    | Some l => (l, w)
    | None =>
        let '(l, objects) := heap_alloc (open_image path) (snd w) in
        (l, (<[path := l]> (fst w), objects))
    end;
  open_static_st := fun url w =>
    let '(l, objects) := heap_alloc (open_static url) (snd w) in
    (l, (fst w, objects));
  open_asset_st := fun d filename w =>
    let '(l, objects) := heap_alloc (open_asset d filename) (snd w) in
    (l, (fst w, objects));
  resize_crop_st := fun l size w =>
    match snd w !! l with
    | Some c =>
        let '(l', objects) := heap_alloc (resize_crop c size) (snd w) in
        (l', (fst w, objects))
    | None => (l, w)
    end;
  mask_image_with_image_st := fun l m w =>
    match snd w !! l, snd w !! m with
    | Some c, Some cm =>
        let '(l', objects) :=
          heap_alloc (mask_image_with_image c cm) (snd w) in
        (l', (fst w, objects))
    | _, _ => (l, w)
    end;
  paste_st := fun d s box m w => (fst w, heap_paste d s box m (snd w));
  write_st := fun d l c w =>
    (fst (heap_write d l c (snd w)), (fst w, snd (heap_write d l c (snd w))));
  width_st := fun l w =>
    match snd w !! l with Some c => width c | None => 0 end;
  height_st := fun l w =>
    match snd w !! l with Some c => height c | None => 0 end
|}.

(** The box of the panel at index [i] of the grid, in closed form: the
    first two panels on the first row, every later one on the second. *)
Definition panel_box (i : nat) : Z * Z :=
  match i with
  | O => (83, 482)
  | S O => (862, 482)
  | S (S k) => (83 + 779 * Z.of_nat k, 980)
  end.

(** The pastes of the panels of [stages], the first at index [i]. *)
Fixpoint panels_from (render : APCShadowFloor -> Image) (i : nat)
    (stages : list APCShadowFloor) : list Pasted :=
  match stages with
  | [] => []
  | stage :: rest =>
      {| p_src := render stage;
         p_box := panel_box i;
         p_mask := Some (render stage) |}
      :: panels_from render (S i) rest
  end.


(** Two boxes of width [w] and height [h] that do not overlap: one lies
    entirely left of, right of, above or below the other. *)
Definition boxes_apart (w h : Z) (a b : Z * Z) : Prop :=
  fst a + w <= fst b \/ fst b + w <= fst a
  \/ snd a + h <= snd b \/ snd b + h <= snd a.

(** A paste of the star asset. *)
Definition is_star (p : Pasted) : bool :=
  match p_src p with
  | open_asset _ filename => String.eqb filename "star.png"
  | _ => false
  end.

(** ** A concrete card

    Collaborators, floors and a store used to run the definitions. *)

Definition demo_collaborators : Collaborators := {|
  translate := fun l _ => key l;
  get_floor_difficulty := fun floor _ => floor;
  strftime := fun _ _ => "2024/06/17";
  textbbox := fun _ c =>
    (fst (w_position c), snd (w_position c),
     fst (w_position c) + 10 * w_size c, snd (w_position c) + w_size c);
  width := fun _ => 60;
  height := fun _ => 24
|}.

Definition demo_character (n : Z) : FloorCharacter :=
  {| icon := "https://example.invalid/icon/" +:+ str n +:+ ".png";
     level := 80;
     rank := n |}.

Definition demo_node (defeated : bool) (l : list FloorCharacter) : FloorNode :=
  {| score := 1500; boss_defeated := defeated; avatars := l |}.

Definition demo_floor (title : string) (quick : bool) (stars : Z)
  : APCShadowFloor :=
  {| floor_name := title;
     floor_score := 3000;
     star_num := stars;
     is_quick_clear := quick;
     node_1 := demo_node true [demo_character 1; demo_character 2];
     node_2 := demo_node false [demo_character 3] |}.

Definition demo_floors : list APCShadowFloor :=
  [demo_floor "A" true 3; demo_floor "B" false 3;
   demo_floor "C" false 2; demo_floor "D" false 0].

Definition demo_store : store := {[ 1%positive := demo_floors ]}.

Definition demo_floors_long : list APCShadowFloor :=
  demo_floors ++ [demo_floor "E" false 1; demo_floor "F" false 3].

Definition demo_store_long : store := {[ 1%positive := demo_floors_long ]}.

Definition demo_stage : APCShadowFloor := demo_floor "C" false 2.

Definition demo_card : APCShadowCard :=
  {| _data :=
       {| total_stars := 8;
          total_battles := 5;
          max_floor := "D";
          floors := 1%positive |};
     _season :=
       {| season_name := "Season"; begin_time := 0; end_time := 1 |};
     _locale := "en-US";
     _uid := Some 800000001 |}.

(** * The web application helpers

    [hoyo_buddy/web_app/utils.py].  The helpers talk to the page's client
    storage, to the database and to the ambr API.  A run is the list of the
    calls it made on the outside, in order, with the value it returned or
    the exception it raised. *)

(** The exceptions of the module: its own [ValueError]s and whatever a
    collaborator raises. *)
Inductive Exc : Type :=
| ValueError (msg : string)
| ExternalError (what : string).

Inductive result (A : Type) : Type :=
| Ok (a : A)
| Raise (e : Exc).

Arguments Ok {A} a.
Arguments Raise {A} e.

(** A dict of names by item id, as a string-keyed JSON object. *)
Abbreviation NameCache := (gmap string string).

(** The calls a helper makes on the database and on the ambr API, and the
    tasks it hands to [asyncio.create_task] ([StorageSet], [StorageRemove]).
    What it reads from the client storage is its [storage] argument. *)
Inductive Event : Type :=
| DbConnect
| DbFetchval (filename : string)
| DbClose
| AmbrItemNames (locale : Locale)
| StorageSet (storage_key : string) (value : NameCache)
| StorageRemove (storage_key : string).

(** A run: the calls made, and the outcome. *)
Definition W (A : Type) : Type := (list Event * result A)%type.

#[global] Instance W_ret : MRet W :=
  fun A a => ([], Ok a).

#[global] Instance W_bind : MBind W :=
  fun A B k m =>
    match m with
    | (t, Ok a) => let '(t', r) := k a in (t ++ t', r)
    | (t, Raise e) => (t, Raise e)
    end.

(** One call on the outside with its outcome. *)
Definition call {A : Type} (ev : Event) (r : result A) : W A := ([ev], r).

(** [raise e]. *)
Definition raise {A : Type} (e : Exc) : W A := ([], Raise e).

(** [try: body finally: cleanup], for a cleanup that does not raise. *)
Definition try_finally {A : Type} (body : W A) (cleanup : list Event) : W A :=
  (fst body ++ cleanup, snd body).

(** [hoyo_buddy.enums.Game]: the members the module names, and the others. *)
Inductive Game : Type :=
| GENSHIN
| STARRAIL
| ZZZ
| OtherGame (member : string).

(** [game.name]. *)
Definition Game_name (game : Game) : string :=
  match game with
  | GENSHIN => "GENSHIN"
  | STARRAIL => "STARRAIL"
  | ZZZ => "ZZZ"
  | OtherGame member => member
  end.

(** [hoyo_buddy.db.models.GachaHistory], the attribute the module reads. *)
Record GachaHistory : Type := {
  item_id : Z
}.

(** The outside of the web helpers. *)
Class WebCollaborators : Type := {
  (** [f"{game}"]. *)
  Game_str : Game -> string;
  (** [(await api.fetch_weapon_detail(item_id)).icon]. *)
  fetch_weapon_icon : Z -> result string;
  (** [(await api.fetch_character_detail(character_id)).icon]. *)
  fetch_character_icon : string -> result string;
  (** [f"{locale_to_zenless_data_lang(locale)}"] and its Star Rail twin. *)
  locale_to_zenless_data_lang : Locale -> string;
  locale_to_starrail_data_lang : Locale -> string;
  (** [asyncpg.connect(CONFIG.db_url)]. *)
  db_connect : result unit;
  (** [conn.fetchval('SELECT data FROM "jsonfile" WHERE name = $1', name)]:
      [None] when no row matches. *)
  db_fetchval : string -> result (option string);
  (** [orjson.loads(json_string)], for the documents of the callers: an
      object with string values, as its items in order. *)
  orjson_loads : option string -> result (list (string * string));
  (** [int(k)] on a string. *)
  int_of_str : string -> result Z;
  (** [client.fetch_item_id_to_name_map()] of [AmbrAPIClient(locale)]. *)
  ambr_item_names : Locale -> result (gmap Z string);
  (** [translator.translate(LocaleStr(key="loading_text"), locale)]. *)
  translate_loading_text : Locale -> string
}.

Section WebApp.

Context `{WebCollaborators}.

(** [fetch_json_file]. *)
Definition fetch_json_file (filename : string) : W (list (string * string)) :=
  _ ← call DbConnect db_connect;
  try_finally
    (json_string ← call (DbFetchval filename) (db_fetchval filename);
     ([], orjson_loads json_string))
    [DbClose].

(** [{int(k): v for k, v in map_.items()}]: a later item replaces an
    earlier one with the same key; the first key [int] rejects ends it. *)
Fixpoint int_keys (items : list (string * string)) (acc : gmap Z string)
  : result (gmap Z string) :=
  match items with
  | [] => Ok acc
  | (k, v) :: rest =>
      match int_of_str k with
      | Ok n => int_keys rest (<[n := v]> acc)
      | Raise e => Raise e
      end
  end.

(** The key of the cached names in the client storage. *)
Definition gacha_names_key (locale : Locale) (game : Game) : string :=
  "hb." +:+ locale +:+ "." +:+ Game_name game +:+ ".gacha_names".

(** The names by item id of a game: the [if]/[elif] chain of
    [get_gacha_names] that fills [item_names]. *)
Definition fetch_item_names (locale : Locale) (game : Game)
  : W (gmap Z string) :=
  match game with
  | ZZZ =>
      map_ ← fetch_json_file
               ("zzz_item_names_" +:+ locale_to_zenless_data_lang locale
                +:+ ".json");
      ([], int_keys map_ ∅)
  | STARRAIL =>
      map_ ← fetch_json_file
               ("hsr_item_names_" +:+ locale_to_starrail_data_lang locale
                +:+ ".json");
      ([], int_keys map_ ∅)
  | GENSHIN => call (AmbrItemNames locale) (ambr_item_names locale)
  | OtherGame _ =>
      raise (ValueError ("Unsupported game: " +:+ Game_str game
                         +:+ " for fetching gacha names"))
  end.

(** [get_gacha_names].  [storage] is what [page.client_storage] holds under
    the keys of name dicts.  [list({g.item_id for g in gachas})] is the list
    of the elements of the set, in the order the set gives them. *)
Definition get_gacha_names (storage : gmap string NameCache)
    (gachas : list GachaHistory) (locale : Locale) (game : Game)
  : W (gmap Z string) :=
  let cached_gacha_names : NameCache :=
    default ∅ (storage !! gacha_names_key locale game) in
  let result : gmap Z string := ∅ in
  let item_ids := elements (list_to_set (map item_id gachas) : gset Z) in
  let non_cached_item_ids : list Z := [] in
  let '(result, non_cached_item_ids) :=
    for_in item_ids
      (fun item_id '(result, non_cached_item_ids) =>
         match cached_gacha_names !! str item_id with
         | Some name => (<[item_id := name]> result, non_cached_item_ids)
         | None => (result, non_cached_item_ids ++ [item_id])
         end)
      (result, non_cached_item_ids) in
  match non_cached_item_ids with
  | [] => mret result
  | _ :: _ =>
      item_names ← fetch_item_names locale game;
      let result :=
        for_in non_cached_item_ids
          (fun item_id result =>
             <[item_id := default "???" (item_names !! item_id)]> result)
          result in
      let cached_gacha_names : NameCache :=
        kmap str item_names ∪ cached_gacha_names in
      _ ← call (StorageSet (gacha_names_key locale game) cached_gacha_names)
             (Ok tt);
      mret result
  end.

(** [get_gacha_icon]. *)
Definition get_gacha_icon (game : Game) (item_id : Z) : result string :=
  match game with
  | ZZZ => Ok ("https://stardb.gg/api/static/zzz/" +:+ str item_id +:+ ".png")
  | GENSHIN =>
      if (String.length (str item_id) =? 5)%nat
      then fetch_weapon_icon item_id
      else fetch_character_icon (str item_id)
  | STARRAIL =>
      if (String.length (str item_id) =? 5)%nat
      then Ok ("https://stardb.gg/api/static/StarRailResWebp/icon/light_cone/"
               +:+ str item_id +:+ ".webp")
      else Ok ("https://stardb.gg/api/static/StarRailResWebp/icon/character/"
               +:+ str item_id +:+ ".webp")
  | OtherGame _ => Raise (ValueError ("Unsupported game: " +:+ Game_str game))
  end.

(** [clear_storage]: one removal task per flag that is set. *)
Definition clear_storage (user_id : Z) (cookies device_id device_fp : bool)
  : W unit :=
  _ ← (if cookies
       then call (StorageRemove ("hb." +:+ str user_id +:+ ".cookies")) (Ok tt)
       else mret tt);
  _ ← (if device_id
       then call (StorageRemove ("hb." +:+ str user_id +:+ ".device_id"))
              (Ok tt)
       else mret tt);
  if device_fp
  then call (StorageRemove ("hb." +:+ str user_id +:+ ".device_fp")) (Ok tt)
  else mret tt.

(** The text of [LoadingSnackBar.__init__]. *)
Definition LoadingSnackBar_text (message : option string)
    (locale : option Locale) : string :=
  match locale with
  | Some locale => translate_loading_text locale
  | None =>
      match message with
      | Some m => if decide (m = "") then "Loading..." else m
      | None => "Loading..."
      end
  end.

End WebApp.

(** An item id whose numeral is no key of the cached names. *)
Definition uncached (cached : NameCache) (item_id : Z) : bool :=
  match cached !! str item_id with
  | Some _ => false
  | None => true
  end.

(** The storage once the tasks of a run have been carried out. *)
Definition run_storage_tasks (trace : list Event)
    (storage : gmap string NameCache) : gmap string NameCache :=
  fold_left
    (fun st ev =>
       match ev with
       | StorageSet k v => <[k := v]> st
       | StorageRemove k => delete k st
       | _ => st
       end)
    trace storage.

(** The storage keys a run asks to remove. *)
Definition removed_keys (trace : list Event) : list string :=
  omap (fun ev => match ev with StorageRemove k => Some k | _ => None end)
    trace.

(** Collaborators and a storage to run the web helpers on. *)
Definition demo_web : WebCollaborators := {|
  Game_str := Game_name;
  fetch_weapon_icon := fun n => Ok ("weapon/" +:+ str n);
  fetch_character_icon := fun s => Ok ("character/" +:+ s);
  locale_to_zenless_data_lang := fun _ => "en";
  locale_to_starrail_data_lang := fun _ => "en";
  db_connect := Ok tt;
  db_fetchval := fun _ => Ok (Some "{}");
  orjson_loads := fun _ => Ok [("1001", "Anby"); ("1002", "Nicole")];
  int_of_str := fun s =>
    if decide (s = "1001") then Ok 1001
    else if decide (s = "1002") then Ok 1002
    else Raise (ValueError "invalid literal for int()");
  ambr_item_names := fun _ => Ok {[ 10000002 := "Kamisato Ayaka" ]};
  translate_loading_text := fun _ => "Loading"
|}.

(** The same collaborators with the database down. *)
Definition demo_web_down : WebCollaborators := {|
  Game_str := Game_name;
  fetch_weapon_icon := fun n => Ok ("weapon/" +:+ str n);
  fetch_character_icon := fun s => Ok ("character/" +:+ s);
  locale_to_zenless_data_lang := fun _ => "en";
  locale_to_starrail_data_lang := fun _ => "en";
  db_connect := Raise (ExternalError "connection refused");
  db_fetchval := fun _ => Ok None;
  orjson_loads := fun _ => Ok [];
  int_of_str := fun _ => Raise (ValueError "invalid literal for int()");
  ambr_item_names := fun _ => Ok ∅;
  translate_loading_text := fun _ => "Loading"
|}.

Definition demo_gachas : list GachaHistory :=
  [{| item_id := 1001 |}; {| item_id := 1002 |}; {| item_id := 1001 |}].

Definition demo_storage : gmap string NameCache :=
  {[ "hb.en-US.ZZZ.gacha_names" := {[ "1001" := "Anby (old)" ]} ]}.


(** * Properties *)

(** ** Canvases *)

Lemma paste_all_app (im : Image) (ps qs : list Pasted) :
  paste_all im (ps ++ qs) = paste_all (paste_all im ps) qs.
Proof. unfold paste_all. apply fold_left_app. Qed.

Lemma canvas_pastes_paste_all (ps : list Pasted) :
  forall im, canvas_pastes (paste_all im ps) = canvas_pastes im ++ ps.
Proof.
  induction ps as [|p ps IH]; intros im; simpl.
  - now rewrite app_nil_r.
  - change (canvas_pastes (paste_all (paste im (p_src p) (p_box p) (p_mask p)) ps)
            = canvas_pastes im ++ p :: ps).
    rewrite IH. simpl. destruct p. simpl. now rewrite <- app_assoc.
Qed.

Lemma canvas_writes_paste_all (ps : list Pasted) :
  forall im, canvas_writes (paste_all im ps) = canvas_writes im.
Proof.
  induction ps as [|p ps IH]; intros im; simpl; [reflexivity|].
  change (canvas_writes (paste_all (paste im (p_src p) (p_box p) (p_mask p)) ps)
          = canvas_writes im).
  now rewrite IH.
Qed.

Lemma canvas_base_paste_all (ps : list Pasted) :
  forall im, canvas_base (paste_all im ps) = canvas_base im.
Proof.
  induction ps as [|p ps IH]; intros im; simpl; [reflexivity|].
  change (canvas_base (paste_all (paste im (p_src p) (p_box p) (p_mask p)) ps)
          = canvas_base im).
  now rewrite IH.
Qed.

(** ** Python helpers *)

Lemma range_nonpos (n : Z) : n <= 0 -> range n = [].
Proof.
  intros Hn. unfold range. now replace (Z.to_nat n) with 0%nat by lia.
Qed.

Lemma length_range (n : Z) : length (range n) = Z.to_nat n.
Proof. unfold range. now rewrite length_map, length_seq. Qed.

Lemma getitem_nonneg {A : Type} (l : list A) (i : Z) :
  0 <= i -> getitem l i = nth_error l (Z.to_nat i).
Proof.
  intros Hi. unfold getitem.
  destruct (0 <=? i) eqn:E0; [|lia].
  destruct (i <? Z.of_nat (length l)) eqn:E1; simpl; [reflexivity|].
  replace (i <? 0) with false by lia. simpl.
  symmetry. apply nth_error_None. lia.
Qed.

(** A loop that pastes [src] and moves right by [dx] at each turn draws a
    row: turn [k] pastes at [(x + dx * k, y)]. *)
Lemma for_in_row {A : Type} (body : A -> Image * (Z * Z) -> Image * (Z * Z))
    (src : Image) (mask : option Image) (dx : Z) :
  (forall a im pos,
     body a (im, pos) = (paste im src pos mask, (fst pos + dx, snd pos))) ->
  forall (l : list A) (im : Image) (x y : Z),
    for_in l body (im, (x, y)) =
    (paste_all im
       (map (fun k : nat =>
               {| p_src := src; p_box := (x + dx * Z.of_nat k, y);
                  p_mask := mask |})
          (seq 0 (length l))),
     (x + dx * Z.of_nat (length l), y)).
Proof.
  intros Hbody l. unfold for_in.
  induction l as [|a l IH]; intros im x y.
  - simpl. do 2 f_equal. lia.
  - cbn [fold_left length]. rewrite Hbody. cbn [fst snd].
    rewrite IH. cbn [seq map]. rewrite <- seq_shift, map_map.
    unfold paste_all at 2. cbn [fold_left p_src p_box p_mask].
    replace (x + dx * Z.of_nat 0) with x by lia.
    f_equal.
    + unfold paste_all. f_equal. apply map_ext. intros k.
      f_equal. f_equal. lia.
    + f_equal. lia.
Qed.

(** The panel loop of [draw]: from the box of index [i] it pastes the
    panels of [stages] at the boxes of [i], [i + 1], ... *)
Lemma for_in_panels
    (body : Z * APCShadowFloor -> Image * (Z * Z) -> Image * (Z * Z))
    (render : APCShadowFloor -> Image) :
  (forall i stage im pos,
     body (i, stage) (im, pos) =
     (paste im (render stage) pos (Some (render stage)),
      if i =? 1 then (83, 980) else (fst pos + 779, snd pos))) ->
  forall (stages : list APCShadowFloor) (i : nat) (im : Image),
    for_in (combine (map Z.of_nat (seq i (length stages))) stages) body
      (im, panel_box i) =
    (paste_all im (panels_from render i stages),
     panel_box (i + length stages)).
Proof.
  intros Hbody stages. unfold for_in.
  induction stages as [|stage rest IH]; intros i im.
  - simpl. now rewrite Nat.add_0_r.
  - cbn [length seq map combine fold_left panels_from].
    rewrite Hbody.
    replace (if Z.of_nat i =? 1 then (83, 980)
             else (fst (panel_box i) + 779, snd (panel_box i)))
      with (panel_box (S i)).
    + rewrite IH. unfold paste_all at 2. cbn [fold_left p_src p_box p_mask].
      f_equal. f_equal. lia.
    + destruct i as [|[|k]]; cbn [panel_box fst snd].
      * reflexivity.
      * reflexivity.
      * rewrite (proj2 (Z.eqb_neq (Z.of_nat (S (S k))) 1)) by lia.
        f_equal. lia.
Qed.

Lemma nth_error_panels_from (render : APCShadowFloor -> Image)
    (stages : list APCShadowFloor) :
  forall i k : nat,
    nth_error (panels_from render i stages) k =
    option_map
      (fun stage =>
         {| p_src := render stage;
            p_box := panel_box (i + k);
            p_mask := Some (render stage) |})
      (nth_error stages k).
Proof.
  induction stages as [|stage rest IH]; intros i k.
  - now destruct k.
  - destruct k as [|k]; cbn [panels_from nth_error option_map].
    + now rewrite Nat.add_0_r.
    + rewrite IH. now replace (S i + k)%nat with (i + S k)%nat by lia.
Qed.

Lemma map_src_panels_from (render : APCShadowFloor -> Image)
    (stages : list APCShadowFloor) :
  forall i : nat, map p_src (panels_from render i stages) = map render stages.
Proof.
  induction stages as [|stage rest IH]; intros i; simpl; [reflexivity|].
  now rewrite IH.
Qed.

Lemma length_panels_from (render : APCShadowFloor -> Image)
    (stages : list APCShadowFloor) :
  forall i : nat, length (panels_from render i stages) = length stages.
Proof.
  induction stages as [|stage rest IH]; intros i; simpl; [reflexivity|].
  now rewrite IH.
Qed.

(** ** The store *)

(** [draw] on a store where [floors] names a list: it returns, and leaves
    the store with one more list, the reversed comprehension. *)
Lemma draw_run `{Collaborators} (self : APCShadowCard) (st : store)
    (fl : list APCShadowFloor) :
  st !! floors (_data self) = Some fl ->
  let stages := rev (List.filter (fun f => negb (is_quick_clear f)) fl) in
  draw self st =
  Some (save_image (draw_canvas self stages),
        <[fresh (dom st) := stages]> st).
Proof.
  intros Hfl stages. unfold draw, mbind, M_bind, mret, M_ret.
  unfold list_read at 1. rewrite Hfl.
  unfold list_new, list_reverse. rewrite lookup_insert_eq.
  rewrite insert_insert_eq.
  unfold list_read. now rewrite lookup_insert_eq.
Qed.

(** A list object that existed before [draw] is not the one it builds. *)
Lemma fresh_not_allocated (st : store) (r : loc) (l : list APCShadowFloor) :
  st !! r = Some l -> fresh (dom st) <> r.
Proof.
  intros Hr Heq.
  assert (Hin : r ∈ dom st) by (apply elem_of_dom; eauto).
  rewrite <- Heq in Hin. exact (is_fresh (dom st) Hin).
Qed.

(** [reverse()] is seen through every name of the list it is called on. *)
Lemma list_reverse_in_place (st : store) (r : loc) (l : list APCShadowFloor) :
  st !! r = Some l ->
  exists st', list_reverse r st = Some (tt, st') /\ st' !! r = Some (rev l).
Proof.
  intros Hr. unfold list_reverse. rewrite Hr.
  eexists. split; [reflexivity|]. apply lookup_insert_eq.
Qed.

(** ** The card canvas *)

Section CardCanvas.

Context `{Collaborators}.

(** The canvas of [draw] starts from the template chosen by the number of
    stages and receives one paste per stage, in order, along the grid. *)
Lemma draw_canvas_shape (self : APCShadowCard) (stages : list APCShadowFloor) :
  canvas_base (draw_canvas self stages) =
    open_image
      ("hoyo-buddy-assets/assets/apc-shadow/"
       +:+ (if Z.of_nat (length stages) <=? 2
            then "apc_shadow_short.png" else "apc_shadow.png"))
  /\ canvas_pastes (draw_canvas self stages) =
       panels_from (_draw_stage self) 0 stages.
Proof.
  unfold draw_canvas, enumerate. cbv beta iota zeta.
  change (83, 482) with (panel_box 0).
  rewrite (for_in_panels _ (_draw_stage self)) by (intros; reflexivity).
  split.
  - now rewrite canvas_base_paste_all.
  - now rewrite canvas_pastes_paste_all.
Qed.

(** What every statement about [draw] starts from: the call returns, its
    canvas is the one drawn from the reversed comprehension. *)
Lemma draw_returns (self : APCShadowCard) (st : store)
    (fl : list APCShadowFloor) :
  st !! floors (_data self) = Some fl ->
  exists (out : BytesIO) (st' : store),
    draw self st = Some (out, st')
    /\ saved out =
       draw_canvas self
         (rev (List.filter (fun f => negb (is_quick_clear f)) fl))
    /\ st' =
       <[fresh (dom st) :=
           rev (List.filter (fun f => negb (is_quick_clear f)) fl)]> st.
Proof.
  intros Hfl. eexists _, _. split; [exact (draw_run self st fl Hfl)|].
  split; reflexivity.
Qed.

(** C1. For a summary whose floors hold [N] stages that are not quick
    clears, [draw] opens the short template [apc_shadow_short.png] exactly
    when [N <= 2], and the full template [apc_shadow.png] exactly when
    [N > 2]. *)
Theorem draw_template_selection (self : APCShadowCard) (st : store)
    (fl : list APCShadowFloor) :
  st !! floors (_data self) = Some fl ->
  let N := length (List.filter (fun f => negb (is_quick_clear f)) fl) in
  exists (out : BytesIO) (st' : store),
    draw self st = Some (out, st')
    /\ (canvas_base (saved out) =
          open_image
            "hoyo-buddy-assets/assets/apc-shadow/apc_shadow_short.png"
        <-> (N <= 2)%nat)
    /\ (canvas_base (saved out) =
          open_image "hoyo-buddy-assets/assets/apc-shadow/apc_shadow.png"
        <-> (2 < N)%nat).
Proof.
  intros Hfl N.
  destruct (draw_returns self st fl Hfl) as (out & st' & Hrun & Hout & _).
  exists out, st'. split; [exact Hrun|].
  rewrite Hout.
  destruct (draw_canvas_shape self
              (rev (List.filter (fun f => negb (is_quick_clear f)) fl)))
    as [Hbase _].
  rewrite Hbase, length_rev. fold N.
  destruct (Z.leb_spec (Z.of_nat N) 2) as [Hle|Hgt]; cbn.
  - split; split; intros Hx; try reflexivity; try lia; discriminate Hx.
  - split; split; intros Hx; try reflexivity; try lia; discriminate Hx.
Qed.

(** C2. [draw] pastes one stage panel for each floor that is not a quick
    clear and for no other, in the reverse of the order of [floors]:
    from floors [A; B; C; D] with only [A] a quick clear, the panels are
    those of [D; C; B]. *)
Theorem draw_panels_reverse_order (self : APCShadowCard) (st : store)
    (fl : list APCShadowFloor) :
  st !! floors (_data self) = Some fl ->
  exists (out : BytesIO) (st' : store) (shown : list APCShadowFloor),
    draw self st = Some (out, st')
    /\ map p_src (canvas_pastes (saved out)) = map (_draw_stage self) shown
    /\ shown = rev (List.filter (fun f => negb (is_quick_clear f)) fl)
    /\ (forall f, In f shown <-> In f fl /\ is_quick_clear f = false)
    /\ (forall A B C D,
          fl = [A; B; C; D] ->
          is_quick_clear A = true -> is_quick_clear B = false ->
          is_quick_clear C = false -> is_quick_clear D = false ->
          shown = [D; C; B]).
Proof.
  intros Hfl.
  destruct (draw_returns self st fl Hfl) as (out & st' & Hrun & Hout & _).
  exists out, st', (rev (List.filter (fun f => negb (is_quick_clear f)) fl)).
  split; [exact Hrun|]. split; [|split; [reflexivity|split]].
  - rewrite Hout.
    destruct (draw_canvas_shape self
                (rev (List.filter (fun f => negb (is_quick_clear f)) fl)))
      as [_ Hpastes].
    rewrite Hpastes. apply map_src_panels_from.
  - intros f. rewrite <- in_rev, filter_In.
    destruct (is_quick_clear f); simpl; intuition congruence.
  - intros A B C D -> HA HB HC HD. simpl. rewrite HA, HB, HC, HD.
    reflexivity.
Qed.

(** C7. The panel at index 0 of the stages is pasted at (83, 482), the
    one at index 1 at (83 + 779, 482), the one at index 2 at (83, 980) and
    the one at index 3 at (83 + 779, 980); from one panel to the next the
    box moves 779 to the right on the same row, except after the panel at
    index 1, where it goes to (83, 980). *)
Theorem draw_grid_placement (self : APCShadowCard) (st : store)
    (fl : list APCShadowFloor) :
  st !! floors (_data self) = Some fl ->
  let N := length (List.filter (fun f => negb (is_quick_clear f)) fl) in
  exists (out : BytesIO) (st' : store),
    draw self st = Some (out, st')
    /\ length (canvas_pastes (saved out)) = N
    /\ map p_box (firstn 4 (canvas_pastes (saved out))) =
       firstn N [(83, 482); (83 + 779, 482); (83, 980); (83 + 779, 980)]
    /\ (forall (i : nat) (p q : Pasted),
          nth_error (canvas_pastes (saved out)) i = Some p ->
          nth_error (canvas_pastes (saved out)) (S i) = Some q ->
          p_box q =
          if (i =? 1)%nat then (83, 980)
          else (fst (p_box p) + 779, snd (p_box p))).
Proof.
  intros Hfl N.
  destruct (draw_returns self st fl Hfl) as (out & st' & Hrun & Hout & _).
  exists out, st'. split; [exact Hrun|].
  rewrite Hout.
  destruct (draw_canvas_shape self
              (rev (List.filter (fun f => negb (is_quick_clear f)) fl)))
    as [_ Hpastes].
  rewrite Hpastes.
  assert (HN : length (rev (List.filter (fun f => negb (is_quick_clear f)) fl))
               = N) by apply length_rev.
  revert HN.
  generalize (rev (List.filter (fun f => negb (is_quick_clear f)) fl)).
  intros stages HN. split; [|split].
  - now rewrite length_panels_from.
  - rewrite <- HN.
    destruct stages as [|s0 [|s1 [|s2 [|s3 rest]]]]; cbn [length firstn];
      rewrite ?firstn_nil; reflexivity.
  - intros i p q Hp Hq.
    rewrite nth_error_panels_from in Hp, Hq.
    destruct (nth_error stages i) as [sp|]; [|discriminate].
    destruct (nth_error stages (S i)) as [sq|]; [|discriminate].
    cbn in Hp, Hq. injection Hp as <-. injection Hq as <-.
    cbn [p_box].
    destruct i as [|[|k]]; cbn [panel_box Nat.eqb fst snd].
    + reflexivity.
    + reflexivity.
    + f_equal. lia.
Qed.

(** C10. The row break of [draw] happens once: with more than four
    stages that are not quick clears, every panel at an index [i >= 2] is
    pasted on the second row at (83 + (i - 2) * 779, 980), and the fifth
    panel is pasted at (1641, 980). *)
Theorem draw_single_row_break (self : APCShadowCard) (st : store)
    (fl : list APCShadowFloor) :
  st !! floors (_data self) = Some fl ->
  (4 < length (List.filter (fun f => negb (is_quick_clear f)) fl))%nat ->
  exists (out : BytesIO) (st' : store),
    draw self st = Some (out, st')
    /\ (forall (i : nat) (p : Pasted),
          (2 <= i)%nat ->
          nth_error (canvas_pastes (saved out)) i = Some p ->
          p_box p = (83 + (Z.of_nat i - 2) * 779, 980))
    /\ (exists p : Pasted,
          nth_error (canvas_pastes (saved out)) 4 = Some p
          /\ p_box p = (1641, 980)).
Proof.
  intros Hfl Hlong.
  destruct (draw_returns self st fl Hfl) as (out & st' & Hrun & Hout & _).
  exists out, st'. split; [exact Hrun|].
  rewrite Hout.
  destruct (draw_canvas_shape self
              (rev (List.filter (fun f => negb (is_quick_clear f)) fl)))
    as [_ Hpastes].
  rewrite Hpastes.
  rewrite <- length_rev in Hlong. revert Hlong.
  generalize (rev (List.filter (fun f => negb (is_quick_clear f)) fl)).
  intros stages Hlong. split.
  - intros i p Hi Hp.
    rewrite nth_error_panels_from in Hp.
    destruct (nth_error stages i) as [sp|]; [|discriminate].
    cbn in Hp. injection Hp as <-. cbn [p_box].
    destruct i as [|[|k]]; [lia|lia|].
    cbn [panel_box]. f_equal. lia.
  - rewrite nth_error_panels_from.
    destruct (nth_error stages 4) as [s4|] eqn:E4.
    + eexists. split; [reflexivity|]. reflexivity.
    + apply nth_error_None in E4. lia.
Qed.

(** C9. [draw] changes none of the objects it is given: the list named by
    [floors] holds the same floors in the same order after the call, and
    so does every list that existed before it; the comprehension and the
    in-place reversal work on a list that did not exist before the call. *)
Theorem draw_leaves_inputs_unchanged (self : APCShadowCard) (st : store)
    (fl : list APCShadowFloor) :
  st !! floors (_data self) = Some fl ->
  exists (out : BytesIO) (st' : store),
    draw self st = Some (out, st')
    /\ st' !! floors (_data self) = Some fl
    /\ (forall (r : loc) (l : list APCShadowFloor),
          st !! r = Some l -> st' !! r = Some l)
    /\ (exists r : loc,
          st !! r = None
          /\ st' =
             <[r := rev (List.filter (fun f => negb (is_quick_clear f)) fl)]>
               st).
Proof.
  intros Hfl.
  destruct (draw_returns self st fl Hfl) as (out & st' & Hrun & _ & Hst).
  exists out, st'. split; [exact Hrun|].
  assert (Hkeep : forall (r : loc) (l : list APCShadowFloor),
             st !! r = Some l -> st' !! r = Some l).
  { intros r l Hr. rewrite Hst.
    rewrite lookup_insert_ne; [exact Hr|].
    exact (fresh_not_allocated st r l Hr). }
  split; [exact (Hkeep _ _ Hfl)|]. split; [exact Hkeep|].
  exists (fresh (dom st)). split; [|exact Hst].
  apply not_elem_of_dom. apply is_fresh.
Qed.

End CardCanvas.

(** ** The stage panel and its blocks *)

Section StagePanel.

Context `{Collaborators}.

(** Runs [_draw_stage] up to its two loops: the star loop becomes a row of
    pastes, the block loop its eight turns. *)
Ltac run_stage :=
  unfold _draw_stage, Drawer_write; cbv beta iota zeta;
  erewrite (for_in_row _ (open_asset apc_drawer "star.png") None 62)
    by (intros ? ? [? ?]; reflexivity);
  cbv beta iota zeta;
  rewrite length_range;
  change (range 8) with (map Z.of_nat (seq 0 8));
  unfold for_in;
  cbn [seq map fold_left Z.eqb Z.of_nat Pos.of_succ_nat Pos.succ Pos.eqb
       fst snd];
  rewrite !getitem_nonneg by lia.

(** The surface [_draw_block] returns is never a bare asset. *)
Lemma draw_block_not_asset (self : APCShadowCard)
    (chara : option FloorCharacter) (d : Drawer) (filename : string) :
  _draw_block self chara <> open_asset d filename.
Proof.
  destruct chara; unfold _draw_block, Drawer_write; cbv beta iota zeta;
    discriminate.
Qed.

(** The panel of a stage: three texts, then the divider, the stars and the
    eight blocks, placed from the widest of the first two texts. *)
Lemma draw_stage_shape (self : APCShadowCard) (stage : APCShadowFloor) :
  exists c_name c_score c_status : WriteCall,
    canvas_writes (_draw_stage self stage) = [c_name; c_score; c_status]
    /\ w_text c_name =
       TStr (get_floor_difficulty (floor_name stage)
               (season_name (_season self)))
    /\ (exists p : Param,
          w_text c_score =
          TLocale {| key := "pf_card_total_score";
                     params := [("score", p)] |})
    /\ let rightmost :=
         Z.max (item2 (textbbox apc_drawer c_name))
               (item2 (textbbox apc_drawer c_score)) in
       let characters := avatars (node_1 stage) ++ avatars (node_2 stage) in
       w_position c_status = (rightmost + 26 + 37, 60)
       /\ canvas_pastes (_draw_stage self stage) =
          {| p_src := open_asset apc_drawer "line.png";
             p_box := (rightmost + 26, 10);
             p_mask := None |}
          :: map (fun k : nat =>
                    {| p_src := open_asset apc_drawer "star.png";
                       p_box := (rightmost + 26 + 37 + 62 * Z.of_nat k, 0);
                       p_mask := None |})
               (seq 0 (Z.to_nat (star_num stage)))
          ++ map (fun i : nat =>
                    let block := _draw_block self (nth_error characters i) in
                    {| p_src := block;
                       p_box := ((Z.of_nat i mod 4) * 172,
                                 if (i <? 4)%nat then 135 else 301);
                       p_mask := Some block |})
               (seq 0 8).
Proof.
  run_stage.
  eexists _, _, _. split.
  { cbn [canvas_writes]. rewrite canvas_writes_paste_all.
    cbn [canvas_writes app]. reflexivity. }
  split; [reflexivity|]. split; [eexists; reflexivity|].
  cbv zeta. split; [reflexivity|].
  cbn [canvas_pastes]. rewrite canvas_pastes_paste_all.
  cbn [canvas_pastes app]. rewrite <- !app_assoc. cbn [app].
  reflexivity.
Qed.

(** C3. [_draw_stage] pastes eight character blocks, for the slots 0 to 7:
    slot [i] holds the block of the character at index [i] of
    [node_1.avatars + node_2.avatars] when there is one and the block of
    the empty slot when [i] is out of range; with avatars [c1; c2] and
    [c3], slots 0 to 2 hold [c1], [c2], [c3] and slots 3 to 7 are empty.
    Slot [i] is pasted at x = (i mod 4) * 172, with y = 135 for slots 0 to
    3 and y = 301 for slots 4 to 7.  The block of a character is not the
    block of the empty slot: it is [block.png] with the masked 120 by 120
    icon of the character, the level flair and the rank flair pasted on
    it, and the texts ["Lv." level] and [rank] written on it. *)
Theorem draw_stage_character_slots (self : APCShadowCard)
    (stage : APCShadowFloor) :
  let characters := avatars (node_1 stage) ++ avatars (node_2 stage) in
  let empty_block :=
    paste (open_image "hoyo-buddy-assets/assets/apc-shadow/block.png")
      (open_image "hoyo-buddy-assets/assets/apc-shadow/empty.png") (28, 28)
      (Some (open_image "hoyo-buddy-assets/assets/apc-shadow/empty.png")) in
  let blocks :=
    skipn (1 + Z.to_nat (star_num stage))
      (canvas_pastes (_draw_stage self stage)) in
  length (canvas_pastes (_draw_stage self stage)) =
    (1 + Z.to_nat (star_num stage) + 8)%nat
  /\ blocks =
     map (fun i : nat =>
            let block := _draw_block self (nth_error characters i) in
            {| p_src := block;
               p_box := ((Z.of_nat i mod 4) * 172,
                         if (i <? 4)%nat then 135 else 301);
               p_mask := Some block |})
       (seq 0 8)
  /\ (forall (i : nat) (c : FloorCharacter),
        (i < 8)%nat -> nth_error characters i = Some c ->
        exists p : Pasted,
          nth_error blocks i = Some p
          /\ p_src p = _draw_block self (Some c)
          /\ p_src p <> empty_block)
  /\ (forall i : nat,
        (i < 8)%nat -> (length characters <= i)%nat ->
        exists p : Pasted,
          nth_error blocks i = Some p /\ p_src p = empty_block)
  /\ (forall c1 c2 c3 : FloorCharacter,
        avatars (node_1 stage) = [c1; c2] ->
        avatars (node_2 stage) = [c3] ->
        map p_src blocks =
        [_draw_block self (Some c1); _draw_block self (Some c2);
         _draw_block self (Some c3);
         empty_block; empty_block; empty_block; empty_block; empty_block])
  /\ (forall c : FloorCharacter,
        let block := _draw_block self (Some c) in
        let shown_icon :=
          mask_image_with_image
            (resize_crop (open_static (icon c)) (120, 120))
            (open_asset apc_drawer "mask.png") in
        let level_flair := open_asset apc_drawer "level_flair.png" in
        let const_flair := open_asset apc_drawer "const_flair.png" in
        block <> empty_block
        /\ canvas_base block =
           open_image "hoyo-buddy-assets/assets/apc-shadow/block.png"
        /\ canvas_pastes block =
           [{| p_src := shown_icon; p_box := (0, 0);
               p_mask := Some shown_icon |};
            {| p_src := level_flair; p_box := (0, 97);
               p_mask := Some level_flair |};
            {| p_src := const_flair; p_box := (91, 0);
               p_mask := Some const_flair |}]
        /\ map w_text (canvas_writes block) =
           [TStr ("Lv." +:+ str (level c)); TStr (str (rank c))]).
Proof.
  intros characters empty_block blocks.
  assert (Hshown : forall c : FloorCharacter,
            _draw_block self (Some c) <> empty_block).
  { intros c. unfold _draw_block, Drawer_write, empty_block.
    cbv beta iota zeta. discriminate. }
  destruct (draw_stage_shape self stage)
    as (c_name & c_score & c_status & _ & _ & _ & _ & Hpastes).
  cbv zeta in Hpastes. fold characters in Hpastes.
  assert (Hblocks :
    blocks =
    map (fun i : nat =>
           let block := _draw_block self (nth_error characters i) in
           {| p_src := block;
              p_box := ((Z.of_nat i mod 4) * 172,
                        if (i <? 4)%nat then 135 else 301);
              p_mask := Some block |})
      (seq 0 8)).
  { unfold blocks. rewrite Hpastes.
    change (1 + Z.to_nat (star_num stage))%nat
      with (S (Z.to_nat (star_num stage))).
    cbn [skipn]. apply drop_app_length'.
    now rewrite length_map, length_seq. }
  split; [|split; [exact Hblocks|split; [|split; [|split]]]].
  - rewrite Hpastes. cbn [length].
    rewrite length_app, !length_map, !length_seq. lia.
  - intros i c Hi Hc. rewrite Hblocks, nth_error_map, nth_error_seq.
    destruct (Nat.ltb_spec i 8) as [_|Hge]; [|lia].
    cbn [option_map Nat.add]. eexists. split; [reflexivity|].
    cbn [p_src]. rewrite Hc. split; [reflexivity|apply Hshown].
  - intros i Hi Hout. rewrite Hblocks, nth_error_map, nth_error_seq.
    destruct (Nat.ltb_spec i 8) as [_|Hge]; [|lia].
    cbn [option_map Nat.add]. eexists. split; [reflexivity|].
    cbn [p_src].
    assert (Hnone : nth_error characters i = None)
      by now apply nth_error_None.
    now rewrite Hnone.
  - intros c1 c2 c3 H1 H2. rewrite Hblocks.
    unfold characters. rewrite H1, H2. reflexivity.
  - intros c. cbv zeta. split; [apply Hshown|].
    unfold _draw_block, Drawer_write. cbv beta iota zeta.
    repeat split; reflexivity.
Qed.

(** C4. The boss status text of a stage: the quick clear label when
    [is_quick_clear]; else the defeated label when both nodes have
    [boss_defeated]; else the not-defeated label when neither has; else,
    whichever node it is, the defeated label, [" / "], the not-defeated
    label. *)
Theorem draw_stage_boss_status_text (self : APCShadowCard)
    (stage : APCShadowFloor) :
  let defeated :=
    translate {| key := "apc_shadow.boss_defeated"; params := [] |}
      (_locale self) in
  let not_defeated :=
    translate {| key := "apc_shadow.boss_defeated_no"; params := [] |}
      (_locale self) in
  let quick_clear :=
    translate {| key := "moc_quick_clear"; params := [] |} (_locale self) in
  exists c : WriteCall,
    nth_error (canvas_writes (_draw_stage self stage)) 2 = Some c
    /\ length (canvas_writes (_draw_stage self stage)) = 3%nat
    /\ w_text c =
       TStr
         match is_quick_clear stage,
               boss_defeated (node_1 stage), boss_defeated (node_2 stage)
         with
         | true, _, _ => quick_clear
         | false, true, true => defeated
         | false, false, false => not_defeated
         | false, true, false => defeated +:+ " / " +:+ not_defeated
         | false, false, true => defeated +:+ " / " +:+ not_defeated
         end.
Proof.
  cbv zeta. run_stage.
  cbn [canvas_writes]. rewrite canvas_writes_paste_all.
  cbn [canvas_writes app nth_error length].
  eexists. split; [reflexivity|]. split; [reflexivity|].
  cbn [w_text].
  destruct (is_quick_clear stage), (boss_defeated (node_1 stage)),
    (boss_defeated (node_2 stage)); reflexivity.
Qed.

(** C5. The score line of a stage carries the integer 8000 when
    [is_quick_clear], whatever the scores of the stage and of its nodes,
    and otherwise the string [node_1.score "+" node_2.score "=" score]. *)
Theorem draw_stage_score_summary (self : APCShadowCard)
    (stage : APCShadowFloor) :
  exists c : WriteCall,
    nth_error (canvas_writes (_draw_stage self stage)) 1 = Some c
    /\ w_size c = 25
    /\ w_position c = (0, 60)
    /\ w_text c =
       TLocale
         {| key := "pf_card_total_score";
            params :=
              [("score",
                if is_quick_clear stage then PInt 8000
                else PStr (str (score (node_1 stage)) +:+ "+"
                           +:+ str (score (node_2 stage)) +:+ "="
                           +:+ str (floor_score stage)))] |}.
Proof.
  run_stage.
  cbn [canvas_writes]. rewrite canvas_writes_paste_all.
  cbn [canvas_writes app nth_error].
  eexists. split; [reflexivity|]. cbn [w_size w_position w_text].
  split; [reflexivity|]. split; [reflexivity|].
  now destruct (is_quick_clear stage).
Qed.

(** C6. For a stage with [star_num] in 0..3, with [rightmost] the larger
    of the right edges of the boxes of the difficulty label and of the
    score line, [_draw_stage] pastes the divider at x = rightmost + 26 and
    then [star_num] stars, the first at x = rightmost + 26 + 37 and each
    next one 62 further right; no other paste is a star, and with
    [star_num = 0] there is none. *)
Theorem draw_stage_divider_and_stars (self : APCShadowCard)
    (stage : APCShadowFloor) :
  0 <= star_num stage <= 3 ->
  exists (c_name c_score c_status : WriteCall) (stars blocks : list Pasted),
    canvas_writes (_draw_stage self stage) = [c_name; c_score; c_status]
    /\ w_text c_name =
       TStr (get_floor_difficulty (floor_name stage)
               (season_name (_season self)))
    /\ (exists p : Param,
          w_text c_score =
          TLocale {| key := "pf_card_total_score";
                     params := [("score", p)] |})
    /\ let rightmost :=
         Z.max (item2 (textbbox apc_drawer c_name))
               (item2 (textbbox apc_drawer c_score)) in
       canvas_pastes (_draw_stage self stage) =
         {| p_src := open_asset apc_drawer "line.png";
            p_box := (rightmost + 26, 10);
            p_mask := None |} :: stars ++ blocks
       /\ Z.of_nat (length stars) = star_num stage
       /\ (forall (k : nat) (p : Pasted),
             nth_error stars k = Some p ->
             p = {| p_src := open_asset apc_drawer "star.png";
                    p_box := (rightmost + 26 + 37 + 62 * Z.of_nat k, 0);
                    p_mask := None |})
       /\ Forall
            (fun p => p_src p <> open_asset apc_drawer "star.png") blocks
       /\ (star_num stage = 0 -> stars = []).
Proof.
  intros Hstars.
  destruct (draw_stage_shape self stage)
    as (c_name & c_score & c_status & Hw & Hname & Hscore & _ & Hpastes).
  cbv zeta in Hpastes.
  eexists c_name, c_score, c_status, _, _.
  split; [exact Hw|]. split; [exact Hname|]. split; [exact Hscore|].
  cbv zeta. split; [exact Hpastes|]. split; [|split; [|split]].
  - rewrite length_map, length_seq. lia.
  - intros k p Hk.
    rewrite nth_error_map in Hk.
    destruct (nth_error (seq 0 (Z.to_nat (star_num stage))) k) as [j|] eqn:Ej;
      [|discriminate].
    apply nth_error_In in Ej as Hin. apply in_seq in Hin.
    rewrite nth_error_seq in Ej.
    destruct (k <? Z.to_nat (star_num stage))%nat; [|discriminate].
    injection Ej as <-. cbn in Hk. now injection Hk as <-.
  - apply Forall_map. apply Forall_forall. intros i _. cbn.
    apply draw_block_not_asset.
  - intros H0. now rewrite H0.
Qed.


(** *** Further properties of the panel *)

Lemma str_inj (n m : Z) : str n = str m -> n = m.
Proof. unfold str. apply (inj pretty). Qed.

Lemma filter_all {A : Type} (f : A -> bool) (l : list A) :
  (forall x, In x l -> f x = true) -> List.filter f l = l.
Proof.
  induction l as [|x l IH]; intros Hall; simpl; [reflexivity|].
  rewrite (Hall x) by now left.
  f_equal. apply IH. intros y Hy. apply Hall. now right.
Qed.

Lemma filter_none {A : Type} (f : A -> bool) (l : list A) :
  (forall x, In x l -> f x = false) -> List.filter f l = [].
Proof.
  induction l as [|x l IH]; intros Hall; simpl; [reflexivity|].
  rewrite (Hall x) by now left.
  apply IH. intros y Hy. apply Hall. now right.
Qed.

(** Reading a list at the indices below [n] gives its first [n] items,
    with [None] where it is too short. *)
Lemma map_nth_error_seq {A : Type} (n : nat) :
  forall (m : nat) (l : list A),
    (n <= m)%nat ->
    map (nth_error l) (seq 0 n) =
    firstn n (map Some l ++ repeat None m).
Proof.
  induction n as [|n IH]; intros m l Hm; [reflexivity|].
  cbn [seq map]. rewrite <- seq_shift, map_map.
  destruct m as [|m]; [lia|].
  destruct l as [|x l].
  - cbn [map app repeat firstn nth_error]. f_equal.
    assert (Hm' : (n <= m)%nat) by lia.
    specialize (IH m [] Hm'). cbn [map app] in IH. rewrite <- IH.
    apply map_ext. now intros [|k].
  - cbn [map app firstn nth_error]. f_equal.
    assert (Hm' : (n <= S m)%nat) by lia.
    rewrite <- (IH (S m) l Hm'). apply map_ext. reflexivity.
Qed.

(** The blocks of a panel: the pastes after the divider and the stars. *)
Lemma draw_stage_blocks (self : APCShadowCard) (stage : APCShadowFloor) :
  skipn (1 + Z.to_nat (star_num stage))
    (canvas_pastes (_draw_stage self stage)) =
  map (fun i : nat =>
         let block :=
           _draw_block self
             (nth_error (avatars (node_1 stage) ++ avatars (node_2 stage)) i)
         in
         {| p_src := block;
            p_box := ((Z.of_nat i mod 4) * 172,
                      if (i <? 4)%nat then 135 else 301);
            p_mask := Some block |})
    (seq 0 8).
Proof.
  destruct (draw_stage_shape self stage)
    as (c_name & c_score & c_status & _ & _ & _ & _ & Hpastes).
  cbv zeta in Hpastes. rewrite Hpastes.
  change (1 + Z.to_nat (star_num stage))%nat
    with (S (Z.to_nat (star_num stage))).
  cbn [skipn]. apply drop_app_length'.
  now rewrite length_map, length_seq.
Qed.

(** The panel is drawn on a new 639 by 421 transparent surface. *)
Lemma draw_stage_base (self : APCShadowCard) (stage : APCShadowFloor) :
  canvas_base (_draw_stage self stage) = new "RGBA" (639, 421) TRANSPARENT.
Proof.
  run_stage. cbn [canvas_base]. rewrite canvas_base_paste_all. reflexivity.
Qed.

(** The number of stars on a panel is [star_num] whatever its value: none
    when it is zero or negative, and as many as it says above three; then
    the panel has no paste besides the divider, the stars and the eight
    blocks. *)
Theorem draw_stage_star_count (self : APCShadowCard) (stage : APCShadowFloor) :
  length (List.filter is_star (canvas_pastes (_draw_stage self stage))) =
    Z.to_nat (star_num stage)
  /\ length (canvas_pastes (_draw_stage self stage)) =
     (9 + Z.to_nat (star_num stage))%nat.
Proof.
  destruct (draw_stage_shape self stage)
    as (c_name & c_score & c_status & _ & _ & _ & _ & Hpastes).
  cbv zeta in Hpastes. rewrite Hpastes. split.
  - match goal with
    | |- context [List.filter is_star (?line :: ?rest)] =>
        change (List.filter is_star (line :: rest))
          with (List.filter is_star rest)
    end.
    rewrite List.filter_app.
    rewrite filter_all, filter_none.
    + now rewrite app_nil_r, length_map, length_seq.
    + intros p Hp. apply in_map_iff in Hp as (i & <- & _).
      unfold is_star. cbn [p_src].
      now destruct (nth_error _ i).
    + intros p Hp. apply in_map_iff in Hp as (k & <- & _). reflexivity.
  - cbn [length]. rewrite length_app, !length_map, !length_seq. lia.
Qed.

(** The eight slots of a panel hold the first eight characters of
    [node_1.avatars + node_2.avatars], then empty blocks: a ninth character
    and the following ones are left out without an error. *)
Theorem draw_stage_slots_first_eight (self : APCShadowCard)
    (stage : APCShadowFloor) :
  let characters := avatars (node_1 stage) ++ avatars (node_2 stage) in
  map p_src
    (skipn (1 + Z.to_nat (star_num stage))
       (canvas_pastes (_draw_stage self stage))) =
  map (_draw_block self) (firstn 8 (map Some characters ++ repeat None 8)).
Proof.
  intros characters. rewrite draw_stage_blocks, map_map. cbn [p_src].
  rewrite <- (map_nth_error_seq 8 8 characters) by lia.
  now rewrite map_map.
Qed.

(** The characters of [node_2] follow those of [node_1] without a gap: the
    one at index [j] is drawn in slot [len(node_1.avatars) + j], on the
    first row when that slot is below 4. *)
Theorem draw_stage_node_2_slots (self : APCShadowCard)
    (stage : APCShadowFloor) (j : nat) (c : FloorCharacter) :
  nth_error (avatars (node_2 stage)) j = Some c ->
  (length (avatars (node_1 stage)) + j < 8)%nat ->
  let i := (length (avatars (node_1 stage)) + j)%nat in
  nth_error
    (skipn (1 + Z.to_nat (star_num stage))
       (canvas_pastes (_draw_stage self stage))) i =
  Some {| p_src := _draw_block self (Some c);
          p_box := ((Z.of_nat i mod 4) * 172,
                    if (i <? 4)%nat then 135 else 301);
          p_mask := Some (_draw_block self (Some c)) |}.
Proof.
  intros Hc Hi i. rewrite draw_stage_blocks, nth_error_map, nth_error_seq.
  destruct (Nat.ltb_spec i 8) as [_|Hge]; [|unfold i in Hge; lia].
  cbn [option_map Nat.add].
  assert (Hnth : nth_error (avatars (node_1 stage) ++ avatars (node_2 stage)) i
                 = Some c).
  { unfold i. rewrite nth_error_app2 by lia.
    now replace (length (avatars (node_1 stage)) + j
                 - length (avatars (node_1 stage)))%nat with j by lia. }
  now rewrite Hnth.
Qed.

(** Two different slots of a panel are at least 172 apart across or 166
    apart down, so blocks no larger than that do not overlap; and the 120
    by 120 icon pasted at the corner of a block lies inside the 639 by 421
    panel. *)
Theorem draw_stage_slots_apart (self : APCShadowCard) (stage : APCShadowFloor)
    (i j : nat) (p q : Pasted) :
  i <> j ->
  nth_error
    (skipn (1 + Z.to_nat (star_num stage))
       (canvas_pastes (_draw_stage self stage))) i = Some p ->
  nth_error
    (skipn (1 + Z.to_nat (star_num stage))
       (canvas_pastes (_draw_stage self stage))) j = Some q ->
  boxes_apart 172 166 (p_box p) (p_box q)
  /\ 0 <= fst (p_box p) /\ fst (p_box p) + 120 <= 639
  /\ 0 <= snd (p_box p) /\ snd (p_box p) + 120 <= 421.
Proof.
  intros Hij. rewrite draw_stage_blocks, !nth_error_map, !nth_error_seq.
  destruct (Nat.ltb_spec i 8) as [Hi|_]; [|discriminate].
  destruct (Nat.ltb_spec j 8) as [Hj|_]; [|discriminate].
  cbn [option_map Nat.add]. intros [= <-] [= <-]. cbn [p_box].
  unfold boxes_apart.
  do 8 (destruct i as [|i]; [
    do 8 (destruct j as [|j]; [
      cbn [Nat.ltb Nat.leb fst snd];
      repeat match goal with
             | |- context [Z.of_nat ?n mod 4] =>
                 let v := eval vm_compute in (Z.of_nat n mod 4) in
                 change (Z.of_nat n mod 4) with v
             end;
      lia|]);
    lia |]).
  lia.
Qed.

(** A block shows which character it was drawn for: two calls of
    [_draw_block] return the same surface only for arguments with the same
    icon, level and rank, and a character never gives the empty block. *)
Theorem draw_block_injective (self self' : APCShadowCard)
    (a b : option FloorCharacter) :
  _draw_block self a = _draw_block self' b -> a = b.
Proof.
  destruct a as [[i l r]|], b as [[i' l' r']|];
    unfold _draw_block, Drawer_write; cbv beta iota zeta;
    cbn [icon level rank]; intros Heq; try discriminate Heq.
  - injection Heq. intros.
    repeat match goal with
           | E : _ +:+ _ = _ +:+ _ |- _ => apply (inj (String.append _)) in E
           | E : str _ = str _ |- _ => apply str_inj in E
           end.
    now subst.
  - reflexivity.
Qed.

End StagePanel.

(** ** The statements on a concrete card *)

Example demo_draw_boxes :
  option_map
    (fun '(out, st') => (map p_box (canvas_pastes (saved out)), st'))
    (@draw demo_collaborators demo_card demo_store)
  = Some ([(83, 482); (862, 482); (83, 980)],
          <[2%positive := rev (tl demo_floors)]> demo_store).
Proof. vm_compute. reflexivity. Qed.

Example demo_stage_boxes :
  map p_box (canvas_pastes (@_draw_stage demo_collaborators demo_card demo_stage))
  = [(466, 10); (503, 0); (565, 0);
     (0, 135); (172, 135); (344, 135); (516, 135);
     (0, 301); (172, 301); (344, 301); (516, 301)].
Proof. vm_compute. reflexivity. Qed.

Lemma draw_template_selection_witness :
  demo_store !! floors (_data demo_card) = Some demo_floors
  /\ exists (out : BytesIO) (st' : store),
       @draw demo_collaborators demo_card demo_store = Some (out, st')
       /\ (canvas_base (saved out) =
             open_image
               "hoyo-buddy-assets/assets/apc-shadow/apc_shadow_short.png"
           <-> (3 <= 2)%nat)
       /\ (canvas_base (saved out) =
             open_image "hoyo-buddy-assets/assets/apc-shadow/apc_shadow.png"
           <-> (2 < 3)%nat).
Proof.
  split; [reflexivity|].
  apply (@draw_template_selection demo_collaborators demo_card demo_store
           demo_floors).
  reflexivity.
Defined.

Lemma draw_panels_reverse_order_witness :
  demo_store !! floors (_data demo_card) = Some demo_floors
  /\ exists (out : BytesIO) (st' : store),
       @draw demo_collaborators demo_card demo_store = Some (out, st')
       /\ map p_src (canvas_pastes (saved out)) =
          map (@_draw_stage demo_collaborators demo_card)
            [demo_floor "D" false 0; demo_floor "C" false 2;
             demo_floor "B" false 3].
Proof.
  split; [reflexivity|].
  destruct (@draw_panels_reverse_order demo_collaborators demo_card demo_store
              demo_floors eq_refl)
    as (out & st' & shown & Hrun & Hsrc & _ & _ & Hexample).
  exists out, st'. split; [exact Hrun|].
  rewrite Hsrc. f_equal.
  exact (Hexample _ _ _ _ eq_refl eq_refl eq_refl eq_refl eq_refl).
Defined.

Lemma draw_grid_placement_witness :
  demo_store_long !! floors (_data demo_card) = Some demo_floors_long
  /\ exists (out : BytesIO) (st' : store),
       @draw demo_collaborators demo_card demo_store_long = Some (out, st')
       /\ map p_box (firstn 4 (canvas_pastes (saved out))) =
          [(83, 482); (862, 482); (83, 980); (862, 980)].
Proof.
  split; [reflexivity|].
  destruct (@draw_grid_placement demo_collaborators demo_card demo_store_long
              demo_floors_long eq_refl)
    as (out & st' & Hrun & _ & Hboxes & _).
  exists out, st'. split; [exact Hrun|]. exact Hboxes.
Defined.

Lemma draw_single_row_break_witness :
  demo_store_long !! floors (_data demo_card) = Some demo_floors_long
  /\ (4 < length (List.filter (fun f => negb (is_quick_clear f))
                    demo_floors_long))%nat
  /\ exists (out : BytesIO) (st' : store),
       @draw demo_collaborators demo_card demo_store_long = Some (out, st')
       /\ exists p : Pasted,
            nth_error (canvas_pastes (saved out)) 4 = Some p
            /\ p_box p = (1641, 980).
Proof.
  split; [reflexivity|]. split; [vm_compute; lia|].
  destruct (@draw_single_row_break demo_collaborators demo_card
              demo_store_long demo_floors_long eq_refl)
    as (out & st' & Hrun & _ & Hfifth).
  - vm_compute. lia.
  - exists out, st'. split; [exact Hrun|]. exact Hfifth.
Defined.

Lemma draw_leaves_inputs_unchanged_witness :
  demo_store !! floors (_data demo_card) = Some demo_floors
  /\ exists (out : BytesIO) (st' : store),
       @draw demo_collaborators demo_card demo_store = Some (out, st')
       /\ st' !! floors (_data demo_card) = Some demo_floors.
Proof.
  split; [reflexivity|].
  destruct (@draw_leaves_inputs_unchanged demo_collaborators demo_card
              demo_store demo_floors eq_refl)
    as (out & st' & Hrun & Hfloors & _).
  exists out, st'. split; [exact Hrun|]. exact Hfloors.
Defined.

Lemma draw_stage_character_slots_witness :
  avatars (node_1 demo_stage) = [demo_character 1; demo_character 2]
  /\ avatars (node_2 demo_stage) = [demo_character 3]
  /\ map (fun p => map w_text (canvas_writes (p_src p)))
       (skipn 3
          (canvas_pastes
             (@_draw_stage demo_collaborators demo_card demo_stage)))
     = [[TStr "Lv.80"; TStr "1"]; [TStr "Lv.80"; TStr "2"];
        [TStr "Lv.80"; TStr "3"]; []; []; []; []; []].
Proof.
  split; [reflexivity|]. split; [reflexivity|].
  pose proof (@draw_stage_character_slots demo_collaborators demo_card
                demo_stage) as Hslots.
  cbv zeta in Hslots.
  destruct Hslots as (_ & _ & _ & _ & Hexample & Hblock).
  specialize (Hexample (demo_character 1) (demo_character 2)
                (demo_character 3) eq_refl eq_refl).
  change (1 + Z.to_nat (star_num demo_stage))%nat with 3%nat in Hexample.
  rewrite <- (map_map p_src (fun im => map w_text (canvas_writes im))).
  rewrite Hexample. cbn [map].
  destruct (Hblock (demo_character 1)) as (_ & _ & _ & ->).
  destruct (Hblock (demo_character 2)) as (_ & _ & _ & ->).
  destruct (Hblock (demo_character 3)) as (_ & _ & _ & ->).
  reflexivity.
Defined.

Lemma draw_stage_divider_and_stars_witness :
  0 <= star_num demo_stage <= 3
  /\ exists (c_name c_score : WriteCall) (stars blocks : list Pasted),
       canvas_pastes (@_draw_stage demo_collaborators demo_card demo_stage) =
         {| p_src := open_asset apc_drawer "line.png";
            p_box :=
              (Z.max (item2 (@textbbox demo_collaborators apc_drawer c_name))
                 (item2 (@textbbox demo_collaborators apc_drawer c_score))
               + 26, 10);
            p_mask := None |} :: stars ++ blocks
       /\ Z.of_nat (length stars) = 2.
Proof.
  split; [simpl; lia|].
  destruct (@draw_stage_divider_and_stars demo_collaborators demo_card
              demo_stage)
    as (c_name & c_score & c_status & stars & blocks
        & _ & _ & _ & Hpastes & Hcount & _).
  - simpl. lia.
  - exists c_name, c_score, stars, blocks.
    split; [exact Hpastes|exact Hcount].
Defined.

(** ** Further properties of the card *)

Section CardLayout.

Context `{Collaborators}.

Lemma panel_box_apart (i j : nat) :
  i <> j -> boxes_apart 639 421 (panel_box i) (panel_box j).
Proof.
  intros Hij. unfold boxes_apart.
  destruct i as [|[|i]], j as [|[|j]]; cbn [panel_box fst snd]; lia.
Qed.

Lemma panels_first_row (render : APCShadowFloor -> Image)
    (stages : list APCShadowFloor) :
  Forall (fun p => snd (p_box p) = 482) (panels_from render 0 stages)
  <-> (length stages <= 2)%nat.
Proof.
  split.
  - intros Hall.
    destruct stages as [|s0 [|s1 [|s2 rest]]]; cbn [length]; try lia.
    cbn [panels_from] in Hall.
    apply Forall_cons_1 in Hall as [_ Hall].
    apply Forall_cons_1 in Hall as [_ Hall].
    apply Forall_cons_1 in Hall as [Hrow _].
    cbn in Hrow. discriminate Hrow.
  - intros Hlen.
    destruct stages as [|s0 [|s1 [|s2 rest]]]; cbn [length] in Hlen;
      try lia; cbn [panels_from]; repeat constructor.
Qed.

(** The short template goes with a single row: [draw] opens
    [apc_shadow_short.png] exactly when every panel it pastes is on the
    first row, at y = 482. *)
Theorem draw_short_template_single_row (self : APCShadowCard) (st : store)
    (fl : list APCShadowFloor) :
  st !! floors (_data self) = Some fl ->
  exists (out : BytesIO) (st' : store),
    draw self st = Some (out, st')
    /\ (canvas_base (saved out) =
          open_image
            "hoyo-buddy-assets/assets/apc-shadow/apc_shadow_short.png"
        <-> Forall (fun p => snd (p_box p) = 482)
              (canvas_pastes (saved out))).
Proof.
  intros Hfl.
  destruct (draw_returns self st fl Hfl) as (out & st' & Hrun & Hout & _).
  exists out, st'. split; [exact Hrun|].
  rewrite Hout.
  destruct (draw_canvas_shape self
              (rev (List.filter (fun f => negb (is_quick_clear f)) fl)))
    as [Hbase Hpastes].
  rewrite Hbase, Hpastes, panels_first_row.
  destruct (Z.leb_spec
              (Z.of_nat
                 (length
                    (rev (List.filter (fun f => negb (is_quick_clear f)) fl))))
              2) as [Hle|Hgt]; cbn.
  - split; [lia|reflexivity].
  - split; [discriminate|lia].
Qed.

(** The panels of a card do not overlap: each is a 639 by 421 surface and
    the boxes of two different panels are at least that far apart, across
    or down, however many stages there are. *)
Theorem draw_panels_do_not_overlap (self : APCShadowCard) (st : store)
    (fl : list APCShadowFloor) :
  st !! floors (_data self) = Some fl ->
  exists (out : BytesIO) (st' : store),
    draw self st = Some (out, st')
    /\ forall (i j : nat) (p q : Pasted),
         i <> j ->
         nth_error (canvas_pastes (saved out)) i = Some p ->
         nth_error (canvas_pastes (saved out)) j = Some q ->
         canvas_base (p_src p) = new "RGBA" (639, 421) TRANSPARENT
         /\ boxes_apart 639 421 (p_box p) (p_box q).
Proof.
  intros Hfl.
  destruct (draw_returns self st fl Hfl) as (out & st' & Hrun & Hout & _).
  exists out, st'. split; [exact Hrun|].
  rewrite Hout.
  destruct (draw_canvas_shape self
              (rev (List.filter (fun f => negb (is_quick_clear f)) fl)))
    as [_ Hpastes].
  rewrite Hpastes. intros i j p q Hij Hp Hq.
  rewrite nth_error_panels_from in Hp, Hq.
  destruct (nth_error _ i) as [sp|]; [|discriminate].
  destruct (nth_error _ j) as [sq|]; [|discriminate].
  cbn in Hp, Hq. injection Hp as <-. injection Hq as <-. cbn [p_src p_box].
  split; [apply draw_stage_base|now apply panel_box_apart].
Qed.

(** [draw] can be called again: on the store the first call leaves, the
    second call returns the same stream, and the list of floors is still
    the one the caller stored. *)
Theorem draw_twice_same_stream (self : APCShadowCard) (st : store)
    (fl : list APCShadowFloor) :
  st !! floors (_data self) = Some fl ->
  exists (out : BytesIO) (st' st'' : store),
    draw self st = Some (out, st')
    /\ draw self st' = Some (out, st'')
    /\ st'' !! floors (_data self) = Some fl
    /\ size st'' = S (S (size st)).
Proof.
  intros Hfl.
  assert (Hstep : forall s : store,
             s !! floors (_data self) = Some fl ->
             exists s' : store,
               draw self s =
                 Some (save_image
                         (draw_canvas self
                            (rev (List.filter
                                    (fun f => negb (is_quick_clear f)) fl))),
                       s')
               /\ s' !! floors (_data self) = Some fl
               /\ size s' = S (size s)).
  { intros s Hs. eexists. split; [exact (draw_run self s fl Hs)|]. split.
    - rewrite lookup_insert_ne; [exact Hs|].
      exact (fresh_not_allocated s _ fl Hs).
    - apply map_size_insert_None. apply not_elem_of_dom. apply is_fresh. }
  destruct (Hstep st Hfl) as (st' & Hrun & Hfl' & Hsize).
  destruct (Hstep st' Hfl') as (st'' & Hrun' & Hfl'' & Hsize').
  eexists _, st', st''. split; [exact Hrun|]. split; [exact Hrun'|].
  split; [exact Hfl''|]. now rewrite Hsize', Hsize.
Qed.

(** A quick-cleared floor leaves no trace on the card: with or without it
    among the floors, wherever it stands, [draw] returns the same stream. *)
Theorem draw_ignores_quick_clear_floor (self : APCShadowCard)
    (st st' : store) (before after : list APCShadowFloor)
    (f : APCShadowFloor) :
  is_quick_clear f = true ->
  st !! floors (_data self) = Some (before ++ after) ->
  st' !! floors (_data self) = Some (before ++ f :: after) ->
  exists (out : BytesIO) (s s' : store),
    draw self st = Some (out, s) /\ draw self st' = Some (out, s').
Proof.
  intros Hquick Hfl Hfl'.
  eexists _, _, _. split; [exact (draw_run self st _ Hfl)|].
  rewrite (draw_run self st' _ Hfl'). cbv zeta.
  rewrite !List.filter_app. cbn [List.filter]. rewrite Hquick. cbn [negb].
  reflexivity.
Qed.

(** The card canvas is the template chosen by the number of stages, with
    the five header texts written on it in order, then the UID, and then
    the panels: every text of the header and the UID are drawn before the
    first panel is pasted, with arguments that do not depend on the
    floors. *)
Theorem draw_header_before_panels (self : APCShadowCard) (st : store)
    (fl : list APCShadowFloor) :
  st !! floors (_data self) = Some fl ->
  let stages := rev (List.filter (fun f => negb (is_quick_clear f)) fl) in
  let template :=
    open_image
      (if (length stages <=? 2)%nat
       then "hoyo-buddy-assets/assets/apc-shadow/apc_shadow_short.png"
       else "hoyo-buddy-assets/assets/apc-shadow/apc_shadow.png") in
  let texts :=
    [{| w_text := TStr (season_name (_season self));
        w_size := 80; w_position := (76, 75);
        w_style := Some "bold"; w_anchor := None; w_color := None;
        w_locale := Some (_locale self) |};
     {| w_text :=
          TStr (strftime (begin_time (_season self)) "%Y/%m/%d" +:+ " ~ "
                +:+ strftime (end_time (_season self)) "%Y/%m/%d");
        w_size := 36; w_position := (76, 197);
        w_style := Some "medium"; w_anchor := None; w_color := None;
        w_locale := None |};
     {| w_text := TStr (str (total_stars (_data self)));
        w_size := 50; w_position := (193, 374);
        w_style := Some "medium"; w_anchor := Some "mm"; w_color := None;
        w_locale := None |};
     {| w_text :=
          TLocale
            {| key := "apc_shadow.highest_diff_cleared";
               params :=
                 [("diff",
                   PStr (get_floor_difficulty (max_floor (_data self))
                           (season_name (_season self))))] |};
        w_size := 25; w_position := (303, 340);
        w_style := None; w_anchor := None; w_color := None;
        w_locale := Some (_locale self) |};
     {| w_text :=
          TLocale
            {| key := "apc_shadow.times_challenged";
               params := [("times", PInt (total_battles (_data self)))] |};
        w_size := 25; w_position := (303, 374);
        w_style := None; w_anchor := None; w_color := None;
        w_locale := Some (_locale self) |}] in
  let header :=
    write_uid
      (fold_left (fun im c => write im apc_drawer c) texts template)
      (_uid self) in
  exists (out : BytesIO) (st' : store),
    draw self st = Some (out, st')
    /\ saved out =
       paste_all header (panels_from (_draw_stage self) 0 stages)
    /\ canvas_base (saved out) = template
    /\ canvas_writes (saved out) = texts
    /\ canvas_pastes header = [].
Proof.
  intros Hfl stages template texts header.
  destruct (draw_returns self st fl Hfl) as (out & st' & Hrun & Hout & _).
  exists out, st'. split; [exact Hrun|].
  assert (Hsaved : saved out =
                   paste_all header (panels_from (_draw_stage self) 0 stages)).
  { rewrite Hout. fold stages.
    unfold draw_canvas, enumerate. cbv beta iota zeta.
    change (83, 482) with (panel_box 0).
    rewrite (for_in_panels _ (_draw_stage self)) by (intros; reflexivity).
    unfold header, template, texts. f_equal.
    assert (Hlen : (Z.of_nat (length stages) <=? 2)
                   = (length stages <=? 2)%nat).
    { destruct (Nat.leb_spec (length stages) 2);
        [apply Z.leb_le|apply Z.leb_gt]; lia. }
    rewrite Hlen. now destruct (length stages <=? 2)%nat. }
  split; [exact Hsaved|]. rewrite Hsaved. split; [|split].
  - now rewrite canvas_base_paste_all.
  - now rewrite canvas_writes_paste_all.
  - reflexivity.
Qed.

End CardLayout.

(** ** Strings and decimal numerals *)

Lemma list_ascii_of_string_app (s t : string) :
  String.list_ascii_of_string (s +:+ t) =
  String.list_ascii_of_string s ++ String.list_ascii_of_string t.
Proof. induction s as [|c s IH]; simpl; [reflexivity|now rewrite IH]. Qed.

Lemma list_ascii_of_string_inj (s t : string) :
  String.list_ascii_of_string s = String.list_ascii_of_string t -> s = t.
Proof.
  intros Heq.
  rewrite <- (String.string_of_list_ascii_of_string s),
          <- (String.string_of_list_ascii_of_string t).
  now rewrite Heq.
Qed.

(** [s1 + t = s2 + t] gives [s1 = s2]. *)
Lemma string_app_inv_tail (s1 s2 t : string) :
  s1 +:+ t = s2 +:+ t -> s1 = s2.
Proof.
  intros Heq. apply list_ascii_of_string_inj.
  apply (f_equal String.list_ascii_of_string) in Heq.
  rewrite !list_ascii_of_string_app in Heq.
  exact (app_inv_tail _ _ _ Heq).
Qed.

Lemma length_string_app (s t : string) :
  String.length (s +:+ t) = (String.length s + String.length t)%nat.
Proof. induction s as [|c s IH]; simpl; [reflexivity|now rewrite IH]. Qed.

Lemma length_pretty_N_go_ge (x : N) :
  forall s : string,
    (String.length s <= String.length (pretty_N_go x s))%nat.
Proof.
  induction (N.lt_wf_0 x) as [x _ IH]; intros s.
  destruct (N.eq_0_gt_0_cases x) as [->|Hpos].
  - now rewrite pretty_N_go_0.
  - rewrite pretty_N_go_step by exact Hpos.
    etransitivity; [|apply IH; now apply N.div_lt].
    simpl. lia.
Qed.

(** A positive number below [10 ^ k] has at most [k] digits. *)
Lemma length_pretty_N_go_le (k : nat) :
  forall (x : N) (s : string),
    (0 < x < 10 ^ N.of_nat k)%N ->
    (String.length (pretty_N_go x s) <= k + String.length s)%nat.
Proof.
  induction k as [|k IH]; intros x s [Hpos Hlt].
  - change (10 ^ N.of_nat 0)%N with 1%N in Hlt. lia.
  - rewrite pretty_N_go_step by exact Hpos.
    destruct (N.eq_0_gt_0_cases (x `div` 10)) as [Hz|Hdiv].
    + rewrite Hz, pretty_N_go_0. simpl. lia.
    + etransitivity; [apply IH|simpl; lia].
      split; [exact Hdiv|].
      apply N.Div0.div_lt_upper_bound.
      now rewrite Nat2N.inj_succ, N.pow_succ_r' in Hlt.
Qed.

(** A number from [10 ^ k] on has more than [k] digits. *)
Lemma length_pretty_N_go_gt (k : nat) :
  forall (x : N) (s : string),
    (10 ^ N.of_nat k <= x)%N ->
    (S k + String.length s <= String.length (pretty_N_go x s))%nat.
Proof.
  induction k as [|k IH]; intros x s Hge.
  - change (10 ^ N.of_nat 0)%N with 1%N in Hge.
    rewrite pretty_N_go_step by lia.
    etransitivity; [|apply length_pretty_N_go_ge]. simpl. lia.
  - assert (Hpos : (0 < x)%N).
    { assert (10 ^ N.of_nat (S k) <> 0)%N by (apply N.pow_nonzero; lia).
      lia. }
    rewrite pretty_N_go_step by exact Hpos.
    etransitivity; [|apply IH].
    + simpl. lia.
    + rewrite Nat2N.inj_succ, N.pow_succ_r' in Hge.
      apply N.div_le_lower_bound; lia.
Qed.

(** The numeral of a positive integer has [k + 1] characters exactly for
    the integers from [10 ^ k] to [10 ^ (k + 1) - 1]. *)
Lemma length_str_pos (k : nat) (n : Z) :
  0 < n ->
  String.length (str n) = S k <-> 10 ^ Z.of_nat k <= n < 10 ^ Z.of_nat (S k).
Proof.
  intros Hn. destruct n as [|p|p]; try lia.
  unfold str, pretty, pretty_Z, pretty, pretty_positive, pretty, pretty_N.
  destruct (decide (N.pos p = 0%N)) as [Hz|_]; [discriminate Hz|].
  assert (Hpow : forall j : nat, 10 ^ Z.of_nat j = Z.of_N (10 ^ N.of_nat j)).
  { intros j. rewrite N2Z.inj_pow, nat_N_Z. reflexivity. }
  rewrite !Hpow.
  change (Z.pos p) with (Z.of_N (N.pos p)).
  rewrite <- N2Z.inj_le, <- N2Z.inj_lt.
  split.
  - intros Hlen. split.
    + destruct (N.le_gt_cases (10 ^ N.of_nat k) (N.pos p)) as [Hle|Hlt];
        [exact Hle|].
      pose proof (length_pretty_N_go_le k (N.pos p) "") as Hup.
      simpl in Hup. lia.
    + destruct (N.le_gt_cases (10 ^ N.of_nat (S k)) (N.pos p)) as [Hle|Hlt];
        [|exact Hlt].
      pose proof (length_pretty_N_go_gt (S k) (N.pos p) "" Hle) as Hlow.
      simpl in Hlow. lia.
  - intros [Hle Hlt].
    pose proof (length_pretty_N_go_gt k (N.pos p) "" Hle) as Hlow.
    pose proof (length_pretty_N_go_le (S k) (N.pos p) "") as Hup.
    simpl in Hlow, Hup. lia.
Qed.

(** [len(str(n)) == 5] holds for the five-digit positive integers and,
    because of the sign, for the four-digit negative ones. *)
Lemma length_str_five (n : Z) :
  String.length (str n) = 5%nat
  <-> 10000 <= n <= 99999 \/ -9999 <= n <= -1000.
Proof.
  destruct (Z.lt_trichotomy n 0) as [Hneg|[->|Hpos]].
  - assert (Hstr : str n = "-" +:+ str (- n)).
    { destruct n as [|p|p]; try lia. reflexivity. }
    rewrite Hstr, length_string_app.
    change (String.length "-") with 1%nat.
    assert (Hpos : 0 < - n) by lia.
    pose proof (length_str_pos 3 (- n) Hpos) as H3.
    change (10 ^ Z.of_nat 3) with 1000 in H3.
    change (10 ^ Z.of_nat 4) with 10000 in H3.
    split.
    + intros Hlen. right. assert (Hl : String.length (str (- n)) = 4%nat)
        by lia. apply H3 in Hl. lia.
    + intros [Hr|Hr]; [lia|].
      assert (Hl : String.length (str (- n)) = 4%nat) by (apply H3; lia).
      lia.
  - split; [discriminate|lia].
  - pose proof (length_str_pos 4 n Hpos) as H4.
    change (10 ^ Z.of_nat 4) with 10000 in H4.
    change (10 ^ Z.of_nat 5) with 100000 in H4.
    split.
    + intros Hlen. left. apply H4 in Hlen. lia.
    + intros [Hr|Hr]; [apply H4; lia|lia].
Qed.

(** ** The web application helpers *)

Section WebProperties.

Context `{WebCollaborators}.

#[local] Instance str_Inj : Inj (=) (=) str.
Proof. intros n m. apply str_inj. Qed.

(** *** Icons *)

(** [get_gacha_icon] sorts the items by the length of the numeral of their
    id: for Star Rail an id is a light cone, and for Genshin a weapon,
    exactly when it has five digits, or is negative with four; any other id
    is a character. *)
Theorem get_gacha_icon_five_characters (item_id : Z) :
  let five := 10000 <= item_id <= 99999 \/ -9999 <= item_id <= -1000 in
  get_gacha_icon STARRAIL item_id =
    Ok (if decide five
        then "https://stardb.gg/api/static/StarRailResWebp/icon/light_cone/"
             +:+ str item_id +:+ ".webp"
        else "https://stardb.gg/api/static/StarRailResWebp/icon/character/"
             +:+ str item_id +:+ ".webp")
  /\ get_gacha_icon GENSHIN item_id =
     (if decide five then fetch_weapon_icon item_id
      else fetch_character_icon (str item_id)).
Proof.
  intros five. unfold get_gacha_icon.
  destruct (Nat.eqb_spec (String.length (str item_id)) 5) as [Hlen|Hlen];
    rewrite length_str_five in Hlen; fold five in Hlen;
    destruct (decide five) as [Hfive|Hfive]; try contradiction;
    split; reflexivity.
Qed.

(** The icon URLs of Zenless Zone Zero and of Star Rail tell the items
    apart: on one game, two item ids with the same URL are the same id. *)
Theorem get_gacha_icon_url_injective (game : Game) (item_id item_id' : Z)
    (url : string) :
  game = ZZZ \/ game = STARRAIL ->
  get_gacha_icon game item_id = Ok url ->
  get_gacha_icon game item_id' = Ok url ->
  item_id = item_id'.
Proof.
  intros [->| ->]; unfold get_gacha_icon.
  - intros [= <-] [= Heq].
    apply (inj (String.append _)) in Heq.
    apply string_app_inv_tail in Heq. now apply str_inj in Heq.
  - destruct (String.length (str item_id) =? 5)%nat,
             (String.length (str item_id') =? 5)%nat;
      intros [= <-] [= Heq];
      apply (inj (String.append _)) in Heq;
      apply string_app_inv_tail in Heq; now apply str_inj in Heq.
Qed.

(** *** The database *)

(** [fetch_json_file] closes the connection it opened on every path: when
    the connection is made, the query is sent and the last call is the
    close, whether the query and the decoding succeed or raise; it returns
    a document only when all three succeed. *)
Theorem fetch_json_file_closes (filename : string) :
  fst (fetch_json_file filename) =
    match db_connect with
    | Ok _ => [DbConnect; DbFetchval filename; DbClose]
    | Raise _ => [DbConnect]
    end
  /\ (forall doc : list (string * string),
        snd (fetch_json_file filename) = Ok doc <->
        exists (u : unit) (json_string : option string),
          db_connect = Ok u
          /\ db_fetchval filename = Ok json_string
          /\ orjson_loads json_string = Ok doc).
Proof.
  unfold fetch_json_file, try_finally, call, mbind, W_bind.
  destruct db_connect as [u|e]; cbn.
  - destruct (db_fetchval filename) as [js|e]; cbn.
    + destruct (orjson_loads js) as [doc'|e] eqn:Eload; cbn.
      * split; [reflexivity|]. intros doc. split.
        -- intros [= <-]. eauto.
        -- intros (u' & js' & _ & [= <-] & Hl). congruence.
      * split; [reflexivity|]. intros doc. split; [discriminate|].
        intros (u' & js' & _ & [= <-] & Hl). congruence.
    + split; [reflexivity|]. intros doc. split; [discriminate|].
      intros (u' & js' & _ & Hf & _). discriminate Hf.
  - split; [reflexivity|]. intros doc. split; [discriminate|].
    intros (u' & js' & Hc & _). discriminate Hc.
Qed.

(** *** The storage keys of a user *)

(** [clear_storage] for one user asks for the removal of no key of another
    user, whatever the flags of either call. *)
Theorem clear_storage_other_user (user_id user_id' : Z)
    (cookies device_id device_fp cookies' device_id' device_fp' : bool)
    (k : string) :
  user_id <> user_id' ->
  In k (removed_keys
          (fst (clear_storage user_id cookies device_id device_fp))) ->
  ~ In k (removed_keys
            (fst (clear_storage user_id' cookies' device_id' device_fp'))).
Proof.
  assert (Hdiff : forall (u u' : Z),
            "hb." +:+ str u +:+ ".cookies" <>
            "hb." +:+ str u' +:+ ".device_id"
            /\ "hb." +:+ str u +:+ ".cookies" <>
               "hb." +:+ str u' +:+ ".device_fp"
            /\ "hb." +:+ str u +:+ ".device_id" <>
               "hb." +:+ str u' +:+ ".device_fp").
  { intros u u'.
    assert (Hlast : forall (a b t t' : string),
              "hb." +:+ a +:+ t = "hb." +:+ b +:+ t' ->
              rev (String.list_ascii_of_string t) ++
                rev (String.list_ascii_of_string a) =
              rev (String.list_ascii_of_string t') ++
                rev (String.list_ascii_of_string b)).
    { intros a b t t' Heq. apply (inj (String.append _)) in Heq.
      apply (f_equal String.list_ascii_of_string) in Heq.
      rewrite !list_ascii_of_string_app in Heq.
      apply (f_equal (@rev _)) in Heq.
      now rewrite !rev_app_distr in Heq. }
    repeat split; intros Heq; apply Hlast in Heq; cbn in Heq;
      discriminate Heq. }
  intros Hne Hin Hin'.
  unfold clear_storage, call, mbind, W_bind, mret, W_ret in Hin, Hin'.
  destruct cookies, device_id, device_fp, cookies', device_id', device_fp';
    cbn in Hin, Hin';
    repeat match goal with
           | Hx : _ \/ _ |- _ => destruct Hx as [Hx|Hx]
           | Hx : False |- _ => contradiction
           end;
    subst k;
    first
      [ apply (inj (String.append _)) in Hin';
        apply string_app_inv_tail in Hin'; apply str_inj in Hin'; congruence
      | destruct (Hdiff user_id user_id') as (D1 & D2 & D3);
        destruct (Hdiff user_id' user_id) as (E1 & E2 & E3);
        congruence ].
Qed.

(** Without a locale the loading snack bar never shows an empty text: an
    empty message gives [Loading...], as a missing one does. *)
Theorem LoadingSnackBar_text_not_empty (message : option string) :
  LoadingSnackBar_text message None <> ""
  /\ (message = Some "" -> LoadingSnackBar_text message None = "Loading...").
Proof.
  unfold LoadingSnackBar_text. split.
  - destruct message as [m|]; [|discriminate].
    destruct (decide (m = "")) as [->|Hm]; [discriminate|exact Hm].
  - now intros ->.
Qed.

(** *** The names of the items *)

(** The first loop of [get_gacha_names]: the ids found in the cache get
    their cached name, the others are collected. *)
Lemma cache_loop (cached : NameCache)
    (body : Z -> gmap Z string * list Z -> gmap Z string * list Z) :
  (forall id r nc,
     body id (r, nc) =
     match cached !! str id with
     | Some name => (<[id := name]> r, nc)
     | None => (r, nc ++ [id])
     end) ->
  forall (l : list Z) (r : gmap Z string) (nc : list Z),
  exists r' : gmap Z string,
    for_in l body (r, nc) = (r', nc ++ List.filter (uncached cached) l)
    /\ forall id : Z,
         r' !! id =
         match (if decide (id ∈ l) then cached !! str id else None) with
         | Some name => Some name
         | None => r !! id
         end.
Proof.
  intros Hbody l. unfold for_in.
  induction l as [|a l IH]; intros r nc.
  - exists r. split; [simpl; now rewrite app_nil_r|].
    intros id. destruct (decide (id ∈ [])) as [Hin|_]; [|reflexivity].
    now apply not_elem_of_nil in Hin.
  - cbn [fold_left List.filter]. rewrite Hbody. unfold uncached at 1.
    destruct (cached !! str a) as [name|] eqn:Ea.
    + destruct (IH (<[a := name]> r) nc) as (r' & Hrun & Hr').
      exists r'. split; [exact Hrun|].
      intros id. rewrite Hr'.
      destruct (decide (id = a)) as [->|Hne].
      * rewrite lookup_insert_eq, Ea.
        destruct (decide (a ∈ a :: l)) as [_|Hn]; [|exfalso; apply Hn; left].
        now destruct (decide (a ∈ l)).
      * rewrite lookup_insert_ne by congruence.
        destruct (decide (id ∈ l)) as [Hl|Hl],
                 (decide (id ∈ a :: l)) as [Hal|Hal]; try reflexivity.
        -- exfalso. apply Hal. now right.
        -- exfalso. apply elem_of_cons in Hal as [Heq|Hin]; contradiction.
    + destruct (IH r (nc ++ [a])) as (r' & Hrun & Hr').
      exists r'. split; [now rewrite Hrun, <- app_assoc|].
      intros id. rewrite Hr'.
      destruct (decide (id = a)) as [->|Hne].
      * rewrite Ea.
        destruct (decide (a ∈ a :: l)) as [_|Hn]; [|exfalso; apply Hn; left].
        now destruct (decide (a ∈ l)).
      * destruct (decide (id ∈ l)) as [Hl|Hl],
                 (decide (id ∈ a :: l)) as [Hal|Hal]; try reflexivity.
        -- exfalso. apply Hal. now right.
        -- exfalso. apply elem_of_cons in Hal as [Heq|Hin]; contradiction.
Qed.

(** The second loop: every collected id gets the name of the table, or
    the placeholder. *)
Lemma names_loop (table : gmap Z string) (l : list Z) :
  forall (r : gmap Z string) (id : Z),
    for_in l
      (fun item_id result =>
         <[item_id := default "???" (table !! item_id)]> result) r !! id =
    if decide (id ∈ l) then Some (default "???" (table !! id)) else r !! id.
Proof.
  unfold for_in. induction l as [|a l IH]; intros r id.
  - destruct (decide (id ∈ [])) as [Hin|_]; [|reflexivity].
    now apply not_elem_of_nil in Hin.
  - cbn [fold_left]. rewrite IH.
    destruct (decide (id = a)) as [->|Hne].
    + rewrite lookup_insert_eq.
      destruct (decide (a ∈ a :: l)) as [_|Hn]; [|exfalso; apply Hn; left].
      now destruct (decide (a ∈ l)).
    + rewrite lookup_insert_ne by congruence.
      destruct (decide (id ∈ l)) as [Hl|Hl],
               (decide (id ∈ a :: l)) as [Hal|Hal]; try reflexivity.
      * exfalso. apply Hal. now right.
      * exfalso. apply elem_of_cons in Hal as [Heq|Hin]; contradiction.
Qed.

Lemma elem_of_uncached (cached : NameCache) (l : list Z) (id : Z) :
  id ∈ List.filter (uncached cached) l <-> id ∈ l /\ cached !! str id = None.
Proof.
  rewrite !list_elem_of_In, filter_In. unfold uncached.
  destruct (cached !! str id); intuition congruence.
Qed.

Lemma elem_of_item_ids (gachas : list GachaHistory) (id : Z) :
  id ∈ elements (list_to_set (map item_id gachas) : gset Z)
  <-> In id (map item_id gachas).
Proof.
  now rewrite elem_of_elements, elem_of_list_to_set, list_elem_of_In.
Qed.

(** [get_gacha_names] in one equation: the cached names, then, when an id
    is missing from the cache, the table of the game, the names it gives
    and the updated cache handed to the storage. *)
Lemma get_gacha_names_unfold (storage : gmap string NameCache)
    (gachas : list GachaHistory) (locale : Locale) (game : Game) :
  let cached := default ∅ (storage !! gacha_names_key locale game) in
  let ids := elements (list_to_set (map item_id gachas) : gset Z) in
  let missing := List.filter (uncached cached) ids in
  exists r1 : gmap Z string,
    (forall id : Z,
       r1 !! id = if decide (id ∈ ids) then cached !! str id else None)
    /\ get_gacha_names storage gachas locale game =
       match missing with
       | [] => ([], Ok r1)
       | _ :: _ =>
           match fetch_item_names locale game with
           | (tr, Ok table) =>
               (tr ++ [StorageSet (gacha_names_key locale game)
                         (kmap str table ∪ cached)],
                Ok (for_in missing
                      (fun item_id result =>
                         <[item_id := default "???" (table !! item_id)]>
                           result)
                      r1))
           | (tr, Raise e) => (tr, Raise e)
           end
       end.
Proof.
  intros cached ids missing. unfold get_gacha_names. cbv zeta.
  fold cached. fold ids.
  match goal with
  | |- context [for_in ids ?body (∅, [])] =>
      destruct (cache_loop cached body (fun _ _ _ => eq_refl) ids ∅ [])
        as (r1 & Hrun & Hr1)
  end.
  rewrite Hrun. cbn [app]. fold missing.
  exists r1. split.
  - intros id. rewrite Hr1, lookup_empty.
    destruct (decide (id ∈ ids)); [|reflexivity].
    now destruct (cached !! str id).
  - destruct missing as [|m0 rest]; [reflexivity|].
    unfold mbind, W_bind, mret, W_ret, call.
    destruct (fetch_item_names locale game) as [tr [table|e]];
      [|reflexivity].
    cbn. reflexivity.
Qed.

(** The table of a game is fetched without touching the storage. *)
Lemma fetch_item_names_no_storage_task (locale : Locale) (game : Game)
    (storage : gmap string NameCache) :
  run_storage_tasks (fst (fetch_item_names locale game)) storage = storage.
Proof.
  unfold fetch_item_names, fetch_json_file, try_finally, call, raise,
    mbind, W_bind.
  destruct game; cbn; try reflexivity;
    destruct db_connect; cbn; try reflexivity;
    destruct (db_fetchval _); cbn; try reflexivity;
    destruct (orjson_loads _); reflexivity.
Qed.

(** Names that are all in the cache are served from it: [get_gacha_names]
    calls neither the database nor the API, stores nothing, and returns the
    cached name of each requested id and no other entry.  This holds for
    every game, also one the function has no table for, and for no
    gachas. *)
Theorem get_gacha_names_all_cached (storage : gmap string NameCache)
    (gachas : list GachaHistory) (locale : Locale) (game : Game) :
  let cached := default ∅ (storage !! gacha_names_key locale game) in
  (forall g, In g gachas -> is_Some (cached !! str (item_id g))) ->
  exists r : gmap Z string,
    get_gacha_names storage gachas locale game = ([], Ok r)
    /\ (forall g, In g gachas -> r !! item_id g = cached !! str (item_id g))
    /\ (forall id, ~ In id (map item_id gachas) -> r !! id = None).
Proof.
  intros cached Hall.
  destruct (get_gacha_names_unfold storage gachas locale game)
    as (r1 & Hr1 & Hrun).
  cbv zeta in Hrun. fold cached in Hrun, Hr1.
  assert (Hnone : List.filter (uncached cached)
                    (elements (list_to_set (map item_id gachas) : gset Z))
                  = []).
  { apply filter_none. intros id Hid.
    apply list_elem_of_In, elem_of_item_ids, in_map_iff in Hid
      as (g & <- & Hg).
    unfold uncached. now destruct (Hall g Hg) as [v ->]. }
  rewrite Hnone in Hrun. exists r1. split; [exact Hrun|]. split.
  - intros g Hg. rewrite Hr1.
    destruct (decide _) as [_|Hnot]; [reflexivity|].
    exfalso. apply Hnot, elem_of_item_ids. now apply in_map.
  - intros id Hid. rewrite Hr1.
    destruct (decide _) as [Hin|_]; [|reflexivity].
    now apply elem_of_item_ids in Hin.
Qed.

(** With a name missing from the cache, a game the function has no table
    for makes it raise [ValueError] before any call on the database or the
    API. *)
Theorem get_gacha_names_unsupported_game (storage : gmap string NameCache)
    (gachas : list GachaHistory) (locale : Locale) (member : string)
    (g : GachaHistory) :
  In g gachas ->
  default ∅ (storage !! gacha_names_key locale (OtherGame member))
    !! str (item_id g) = None ->
  get_gacha_names storage gachas locale (OtherGame member) =
  ([], Raise (ValueError ("Unsupported game: " +:+ Game_str (OtherGame member)
                          +:+ " for fetching gacha names"))).
Proof.
  intros Hg Hmiss.
  destruct (get_gacha_names_unfold storage gachas locale (OtherGame member))
    as (r1 & _ & Hrun).
  cbv zeta in Hrun. rewrite Hrun.
  destruct (List.filter _ _) as [|m0 rest] eqn:Hf; [|reflexivity].
  exfalso.
  assert (Hin : item_id g ∈
                List.filter
                  (uncached
                     (default ∅
                        (storage !! gacha_names_key locale (OtherGame member))))
                  (elements (list_to_set (map item_id gachas) : gset Z))).
  { apply elem_of_uncached. split; [|exact Hmiss].
    apply elem_of_item_ids. now apply in_map. }
  rewrite Hf in Hin. now apply not_elem_of_nil in Hin.
Qed.

(** When [get_gacha_names] returns, its result has an entry for each
    requested id and for no other, and an id found in the cache has its
    cached name, whatever the table of the game says. *)
Theorem get_gacha_names_result (storage : gmap string NameCache)
    (gachas : list GachaHistory) (locale : Locale) (game : Game)
    (tr : list Event) (r : gmap Z string) :
  get_gacha_names storage gachas locale game = (tr, Ok r) ->
  let cached := default ∅ (storage !! gacha_names_key locale game) in
  (forall id, is_Some (r !! id) <-> In id (map item_id gachas))
  /\ (forall id name,
        In id (map item_id gachas) -> cached !! str id = Some name ->
        r !! id = Some name).
Proof.
  intros Hret cached.
  destruct (get_gacha_names_unfold storage gachas locale game)
    as (r1 & Hr1 & Hrun).
  cbv zeta in Hrun, Hr1. fold cached in Hrun, Hr1.
  rewrite Hret in Hrun.
  set (ids := elements (list_to_set (map item_id gachas) : gset Z)) in *.
  assert (Hlook : forall id,
            r !! id =
            if decide (id ∈ ids)
            then Some (match cached !! str id with
                       | Some name => name
                       | None =>
                           match snd (fetch_item_names locale game) with
                           | Ok table => default "???" (table !! id)
                           | Raise _ => "???"
                           end
                       end)
            else None).
  { intros id.
    destruct (List.filter (uncached cached) ids) as [|m0 rest] eqn:Hf.
    - injection Hrun as _ ->. rewrite Hr1.
      destruct (decide (id ∈ ids)) as [Hin|_]; [|reflexivity].
      destruct (cached !! str id) eqn:Ec; [reflexivity|].
      exfalso.
      assert (Hm : id ∈ List.filter (uncached cached) ids)
        by now apply elem_of_uncached.
      rewrite Hf in Hm. now apply not_elem_of_nil in Hm.
    - destruct (fetch_item_names locale game) as [tr' [table|e]];
        [|discriminate Hrun].
      match type of Hrun with
      | (_, Ok r) = (_, Ok ?x) => assert (Hr : r = x) by congruence
      end.
      rewrite Hr, names_loop, <- Hf.
      destruct (decide (id ∈ List.filter (uncached cached) ids)) as [Hm|Hm].
      + apply elem_of_uncached in Hm as [Hin Hc].
        destruct (decide (id ∈ ids)); [|contradiction].
        now rewrite Hc.
      + rewrite Hr1.
        destruct (decide (id ∈ ids)) as [Hin|_]; [|reflexivity].
        destruct (cached !! str id) eqn:Ec; [reflexivity|].
        exfalso. apply Hm. now apply elem_of_uncached. }
  split.
  - intros id. rewrite Hlook, <- elem_of_item_ids. fold ids.
    destruct (decide (id ∈ ids)); split; intros Hx;
      try done; try (now eexists).
  - intros id name Hin Hc. rewrite Hlook.
    apply elem_of_item_ids in Hin. fold ids in Hin.
    destruct (decide (id ∈ ids)); [|contradiction].
    now rewrite Hc.
Qed.

(** A requested id that is missing from the cache makes the list of
    collected ids non-empty. *)
Lemma missing_not_nil (cached : NameCache) (gachas : list GachaHistory)
    (g : GachaHistory) :
  In g gachas -> cached !! str (item_id g) = None ->
  List.filter (uncached cached)
    (elements (list_to_set (map item_id gachas) : gset Z)) <> [].
Proof.
  intros Hg Hmiss Hnil.
  assert (Hin : item_id g ∈
                List.filter (uncached cached)
                  (elements (list_to_set (map item_id gachas) : gset Z))).
  { apply elem_of_uncached. split; [|exact Hmiss].
    apply elem_of_item_ids. now apply in_map. }
  rewrite Hnil in Hin. now apply not_elem_of_nil in Hin.
Qed.

Lemma lookup_new_cache (table : gmap Z string) (cached : NameCache) (id : Z) :
  (kmap str table ∪ cached) !! str id =
  match table !! id with
  | Some name => Some name
  | None => cached !! str id
  end.
Proof.
  destruct (table !! id) as [name|] eqn:Et.
  - apply lookup_union_Some_l. rewrite lookup_kmap; [exact Et|apply _].
  - apply lookup_union_r. rewrite lookup_kmap; [exact Et|apply _].
Qed.

(** When a requested name is missing from the cache and the table of the
    game is fetched, every id missing from the cache gets the name of the
    table, or ["???"] when the table has none, and one task is handed to
    the storage after the fetch: the cache with every name of the table
    written over it.  The entries of the cache for other keys are kept, and
    ["???"] is never stored. *)
Theorem get_gacha_names_fetched (storage : gmap string NameCache)
    (gachas : list GachaHistory) (locale : Locale) (game : Game)
    (tr : list Event) (table : gmap Z string) (g : GachaHistory) :
  fetch_item_names locale game = (tr, Ok table) ->
  In g gachas ->
  let cached := default ∅ (storage !! gacha_names_key locale game) in
  cached !! str (item_id g) = None ->
  let new_cache := kmap str table ∪ cached in
  exists r : gmap Z string,
    get_gacha_names storage gachas locale game =
      (tr ++ [StorageSet (gacha_names_key locale game) new_cache], Ok r)
    /\ (forall id,
          In id (map item_id gachas) -> cached !! str id = None ->
          r !! id = Some (default "???" (table !! id)))
    /\ (forall id name,
          table !! id = Some name -> new_cache !! str id = Some name)
    /\ (forall s : string,
          (forall id, str id = s -> table !! id = None) ->
          new_cache !! s = cached !! s).
Proof.
  intros Hfetch Hg cached Hmiss new_cache.
  destruct (get_gacha_names_unfold storage gachas locale game)
    as (r1 & Hr1 & Hrun).
  cbv zeta in Hrun, Hr1. fold cached in Hrun, Hr1.
  pose proof (missing_not_nil cached gachas g Hg Hmiss) as Hne.
  destruct (List.filter (uncached cached) _) as [|m0 rest] eqn:Hf;
    [contradiction|].
  rewrite Hfetch in Hrun. eexists. split; [exact Hrun|]. split; [|split].
  - intros id Hid Hc. rewrite names_loop, <- Hf.
    destruct (decide _) as [_|Hnot]; [reflexivity|].
    exfalso. apply Hnot, elem_of_uncached. split; [|exact Hc].
    now apply elem_of_item_ids.
  - intros id name Hid. unfold new_cache. now rewrite lookup_new_cache, Hid.
  - intros s Hs. unfold new_cache. apply lookup_union_r.
    apply lookup_kmap_None; [apply _|]. intros id ->. now apply Hs.
Qed.

(** When a requested name is missing from the cache and fetching the table
    raises, [get_gacha_names] raises the same exception and hands nothing
    to the storage. *)
Theorem get_gacha_names_fetch_raises (storage : gmap string NameCache)
    (gachas : list GachaHistory) (locale : Locale) (game : Game)
    (tr : list Event) (e : Exc) (g : GachaHistory) :
  fetch_item_names locale game = (tr, Raise e) ->
  In g gachas ->
  default ∅ (storage !! gacha_names_key locale game) !! str (item_id g)
    = None ->
  get_gacha_names storage gachas locale game = (tr, Raise e)
  /\ run_storage_tasks (fst (get_gacha_names storage gachas locale game))
       storage = storage.
Proof.
  intros Hfetch Hg Hmiss.
  destruct (get_gacha_names_unfold storage gachas locale game)
    as (r1 & _ & Hrun).
  cbv zeta in Hrun.
  pose proof (missing_not_nil _ gachas g Hg Hmiss) as Hne.
  destruct (List.filter _ _) as [|m0 rest] eqn:Hf; [contradiction|].
  rewrite Hfetch in Hrun. rewrite Hrun. split; [reflexivity|].
  cbn [fst].
  pose proof (fetch_item_names_no_storage_task locale game storage) as Hno.
  now rewrite Hfetch in Hno.
Qed.

(** Once the task of a first call has been carried out, a second call for
    the same gachas finds every name that the cache or the table had: it
    calls neither the database nor the API, and it returns the name of the
    table for
    every id the table knows, which is what the first call returned for
    the ids that were missing from the cache. *)
Theorem get_gacha_names_second_call (storage : gmap string NameCache)
    (gachas : list GachaHistory) (locale : Locale) (game : Game)
    (tr : list Event) (table : gmap Z string) (g0 : GachaHistory) :
  fetch_item_names locale game = (tr, Ok table) ->
  let cached := default ∅ (storage !! gacha_names_key locale game) in
  In g0 gachas -> cached !! str (item_id g0) = None ->
  (forall g, In g gachas ->
     is_Some (cached !! str (item_id g)) \/ is_Some (table !! item_id g)) ->
  let storage' :=
    run_storage_tasks (fst (get_gacha_names storage gachas locale game))
      storage in
  exists r r2 : gmap Z string,
    snd (get_gacha_names storage gachas locale game) = Ok r
    /\ get_gacha_names storage' gachas locale game = ([], Ok r2)
    /\ (forall g name,
          In g gachas -> table !! item_id g = Some name ->
          r2 !! item_id g = Some name)
    /\ (forall g,
          In g gachas -> cached !! str (item_id g) = None ->
          r2 !! item_id g = r !! item_id g).
Proof.
  intros Hfetch cached Hg0 Hmiss0 Hall storage'.
  destruct (get_gacha_names_fetched storage gachas locale game tr table g0
              Hfetch Hg0 Hmiss0)
    as (r & Hrun & Hr & _ & _).
  fold cached in Hrun, Hr.
  assert (Hst : storage' =
                <[gacha_names_key locale game := kmap str table ∪ cached]>
                  storage).
  { unfold storage'. rewrite Hrun. cbn [fst].
    unfold run_storage_tasks. rewrite fold_left_app. cbn [fold_left].
    pose proof (fetch_item_names_no_storage_task locale game storage) as Hno.
    rewrite Hfetch in Hno. cbn [fst] in Hno.
    unfold run_storage_tasks in Hno. now rewrite Hno. }
  assert (Hcache' : default ∅ (storage' !! gacha_names_key locale game)
                    = kmap str table ∪ cached).
  { now rewrite Hst, lookup_insert_eq. }
  destruct (get_gacha_names_all_cached storage' gachas locale game)
    as (r2 & Hrun2 & Hr2 & _).
  { intros g Hg. rewrite Hcache', lookup_new_cache.
    destruct (Hall g Hg) as [[v Hv]|[v Hv]].
    - rewrite Hv. destruct (table !! item_id g); eauto.
    - rewrite Hv. eauto. }
  exists r, r2. split; [now rewrite Hrun|]. split; [exact Hrun2|]. split.
  - intros g name Hg Ht.
    now rewrite (Hr2 g Hg), Hcache', lookup_new_cache, Ht.
  - intros g Hg Hc.
    rewrite (Hr2 g Hg), Hcache', lookup_new_cache.
    rewrite (Hr (item_id g)) by (try exact Hc; now apply in_map).
    destruct (Hall g Hg) as [[v Hv]|[v Hv]]; [congruence|].
    now rewrite Hv.
Qed.

End WebProperties.

(** ** The further statements on concrete inputs *)

Lemma draw_stage_node_2_slots_witness :
  nth_error (avatars (node_2 demo_stage)) 0 = Some (demo_character 3)
  /\ (length (avatars (node_1 demo_stage)) + 0 < 8)%nat
  /\ nth_error
       (skipn 3
          (canvas_pastes
             (@_draw_stage demo_collaborators demo_card demo_stage))) 2 =
     Some {| p_src :=
               @_draw_block demo_collaborators demo_card
                 (Some (demo_character 3));
             p_box := (344, 135);
             p_mask :=
               Some (@_draw_block demo_collaborators demo_card
                       (Some (demo_character 3))) |}.
Proof.
  split; [reflexivity|]. split; [vm_compute; lia|].
  apply (@draw_stage_node_2_slots demo_collaborators demo_card demo_stage 0
           (demo_character 3)).
  - reflexivity.
  - vm_compute. lia.
Defined.

Lemma draw_stage_slots_apart_witness :
  boxes_apart 172 166 (0, 135) (172, 301).
Proof.
  refine (proj1
            (@draw_stage_slots_apart demo_collaborators demo_card demo_stage
               0 5
               {| p_src :=
                    @_draw_block demo_collaborators demo_card
                      (Some (demo_character 1));
                  p_box := (0, 135);
                  p_mask :=
                    Some (@_draw_block demo_collaborators demo_card
                            (Some (demo_character 1))) |}
               {| p_src := @_draw_block demo_collaborators demo_card None;
                  p_box := (172, 301);
                  p_mask :=
                    Some (@_draw_block demo_collaborators demo_card None) |}
               _ _ _)).
  - discriminate.
  - vm_compute. reflexivity.
  - vm_compute. reflexivity.
Defined.

Lemma draw_block_injective_witness :
  @_draw_block demo_collaborators demo_card (Some (demo_character 3)) =
  @_draw_block demo_collaborators
    {| _data := _data demo_card;
       _season := _season demo_card;
       _locale := "fr";
       _uid := None |}
    (Some (demo_character 3))
  /\ Some (demo_character 3) = Some (demo_character 3).
Proof.
  split; [reflexivity|].
  apply (@draw_block_injective demo_collaborators demo_card
           {| _data := _data demo_card;
              _season := _season demo_card;
              _locale := "fr";
              _uid := None |}).
  reflexivity.
Defined.

Lemma draw_short_template_single_row_witness :
  demo_store !! floors (_data demo_card) = Some demo_floors
  /\ exists (out : BytesIO) (st' : store),
       @draw demo_collaborators demo_card demo_store = Some (out, st')
       /\ (canvas_base (saved out) =
             open_image
               "hoyo-buddy-assets/assets/apc-shadow/apc_shadow_short.png"
           <-> Forall (fun p => snd (p_box p) = 482)
                 (canvas_pastes (saved out))).
Proof.
  split; [reflexivity|].
  apply (@draw_short_template_single_row demo_collaborators demo_card
           demo_store demo_floors).
  reflexivity.
Defined.

Lemma draw_panels_do_not_overlap_witness :
  demo_store !! floors (_data demo_card) = Some demo_floors
  /\ exists (out : BytesIO) (st' : store),
       @draw demo_collaborators demo_card demo_store = Some (out, st')
       /\ forall (i j : nat) (p q : Pasted),
            i <> j ->
            nth_error (canvas_pastes (saved out)) i = Some p ->
            nth_error (canvas_pastes (saved out)) j = Some q ->
            canvas_base (p_src p) = new "RGBA" (639, 421) TRANSPARENT
            /\ boxes_apart 639 421 (p_box p) (p_box q).
Proof.
  split; [reflexivity|].
  apply (@draw_panels_do_not_overlap demo_collaborators demo_card demo_store
           demo_floors).
  reflexivity.
Defined.

Lemma draw_twice_same_stream_witness :
  demo_store !! floors (_data demo_card) = Some demo_floors
  /\ exists (out : BytesIO) (st' st'' : store),
       @draw demo_collaborators demo_card demo_store = Some (out, st')
       /\ @draw demo_collaborators demo_card st' = Some (out, st'')
       /\ st'' !! floors (_data demo_card) = Some demo_floors
       /\ size st'' = S (S (size demo_store)).
Proof.
  split; [reflexivity|].
  apply (@draw_twice_same_stream demo_collaborators demo_card demo_store
           demo_floors).
  reflexivity.
Defined.

Lemma draw_ignores_quick_clear_floor_witness :
  is_quick_clear (demo_floor "A" true 3) = true
  /\ ({[ 1%positive := tl demo_floors ]} : store) !! floors (_data demo_card)
     = Some ([] ++ tl demo_floors)
  /\ demo_store !! floors (_data demo_card)
     = Some ([] ++ demo_floor "A" true 3 :: tl demo_floors)
  /\ exists (out : BytesIO) (s s' : store),
       @draw demo_collaborators demo_card {[ 1%positive := tl demo_floors ]}
         = Some (out, s)
       /\ @draw demo_collaborators demo_card demo_store = Some (out, s').
Proof.
  split; [reflexivity|]. split; [reflexivity|]. split; [reflexivity|].
  apply (@draw_ignores_quick_clear_floor demo_collaborators demo_card
           {[ 1%positive := tl demo_floors ]} demo_store [] (tl demo_floors)
           (demo_floor "A" true 3)); reflexivity.
Defined.

Lemma draw_header_before_panels_witness :
  demo_store !! floors (_data demo_card) = Some demo_floors
  /\ exists (out : BytesIO) (st' : store),
       @draw demo_collaborators demo_card demo_store = Some (out, st')
       /\ canvas_base (saved out) =
          open_image "hoyo-buddy-assets/assets/apc-shadow/apc_shadow.png"
       /\ map w_position (canvas_writes (saved out)) =
          [(76, 75); (76, 197); (193, 374); (303, 340); (303, 374)].
Proof.
  split; [reflexivity|].
  destruct (@draw_header_before_panels demo_collaborators demo_card demo_store
              demo_floors eq_refl)
    as (out & st' & Hrun & _ & Hbase & Hwrites & _).
  exists out, st'. split; [exact Hrun|]. split.
  - rewrite Hbase. reflexivity.
  - rewrite Hwrites. reflexivity.
Defined.

Lemma get_gacha_icon_url_injective_witness :
  (ZZZ = ZZZ \/ ZZZ = STARRAIL)
  /\ @get_gacha_icon demo_web ZZZ 1001 =
     Ok "https://stardb.gg/api/static/zzz/1001.png"
  /\ 1001 = 1001.
Proof.
  split; [now left|]. split; [reflexivity|].
  apply (@get_gacha_icon_url_injective demo_web ZZZ 1001 1001
           "https://stardb.gg/api/static/zzz/1001.png").
  - now left.
  - reflexivity.
  - reflexivity.
Defined.

Lemma clear_storage_other_user_witness :
  7 <> 8
  /\ In "hb.7.cookies"
       (removed_keys (fst (@clear_storage 7 true false true)))
  /\ ~ In "hb.7.cookies"
         (removed_keys (fst (@clear_storage 8 true true true))).
Proof.
  split; [lia|]. split; [vm_compute; now left|].
  apply (@clear_storage_other_user 7 8 true false true true true true).
  - lia.
  - vm_compute. now left.
Defined.

Lemma get_gacha_names_all_cached_witness :
  (forall g, In g [{| item_id := 1001 |}] ->
     is_Some
       (default ∅ (demo_storage !! gacha_names_key "en-US" ZZZ)
          !! str (item_id g)))
  /\ exists r : gmap Z string,
       @get_gacha_names demo_web demo_storage [{| item_id := 1001 |}]
         "en-US" ZZZ = ([], Ok r)
       /\ r !! 1001 = Some "Anby (old)".
Proof.
  assert (Hall : forall g, In g [{| item_id := 1001 |}] ->
            is_Some
              (default ∅ (demo_storage !! gacha_names_key "en-US" ZZZ)
                 !! str (item_id g))).
  { intros g [<-|[]]. exists "Anby (old)". reflexivity. }
  split; [exact Hall|].
  destruct (@get_gacha_names_all_cached demo_web demo_storage
              [{| item_id := 1001 |}] "en-US" ZZZ Hall)
    as (r & Hrun & Hr & _).
  exists r. split; [exact Hrun|].
  exact (Hr {| item_id := 1001 |} (or_introl eq_refl)).
Defined.

Lemma get_gacha_names_unsupported_game_witness :
  In {| item_id := 1002 |} demo_gachas
  /\ default ∅ (demo_storage !! gacha_names_key "en-US" (OtherGame "TOT"))
       !! str 1002 = None
  /\ @get_gacha_names demo_web demo_storage demo_gachas "en-US"
       (OtherGame "TOT") =
     ([], Raise (ValueError
                   "Unsupported game: TOT for fetching gacha names")).
Proof.
  split; [right; now left|]. split; [reflexivity|].
  apply (@get_gacha_names_unsupported_game demo_web demo_storage demo_gachas
           "en-US" "TOT" {| item_id := 1002 |}).
  - right. now left.
  - reflexivity.
Defined.

Lemma get_gacha_names_result_witness :
  @get_gacha_names demo_web demo_storage demo_gachas "en-US" ZZZ =
    ([DbConnect; DbFetchval "zzz_item_names_en.json"; DbClose;
      StorageSet "hb.en-US.ZZZ.gacha_names"
        (kmap str (<[1002 := "Nicole"]> (<[1001 := "Anby"]> ∅))
         ∪ {[ "1001" := "Anby (old)" ]})],
     Ok (<[1002 := "Nicole"]> (<[1001 := "Anby (old)"]> ∅)))
  /\ (<[1002 := "Nicole"]> (<[1001 := "Anby (old)"]> ∅) : gmap Z string)
       !! 1001 = Some "Anby (old)".
Proof.
  assert (Hrun :
    @get_gacha_names demo_web demo_storage demo_gachas "en-US" ZZZ =
    ([DbConnect; DbFetchval "zzz_item_names_en.json"; DbClose;
      StorageSet "hb.en-US.ZZZ.gacha_names"
        (kmap str (<[1002 := "Nicole"]> (<[1001 := "Anby"]> ∅))
         ∪ {[ "1001" := "Anby (old)" ]})],
     Ok (<[1002 := "Nicole"]> (<[1001 := "Anby (old)"]> ∅)))).
  { vm_compute. reflexivity. }
  split; [exact Hrun|].
  apply (proj2 (@get_gacha_names_result demo_web demo_storage demo_gachas
                  "en-US" ZZZ _ _ Hrun) 1001 "Anby (old)").
  - now left.
  - reflexivity.
Defined.

Lemma get_gacha_names_fetched_witness :
  @fetch_item_names demo_web "en-US" ZZZ =
    ([DbConnect; DbFetchval "zzz_item_names_en.json"; DbClose],
     Ok (<[1002 := "Nicole"]> (<[1001 := "Anby"]> ∅)))
  /\ In {| item_id := 1002 |} demo_gachas
  /\ default ∅ (demo_storage !! gacha_names_key "en-US" ZZZ) !! str 1002
     = None
  /\ exists r : gmap Z string,
       snd (@get_gacha_names demo_web demo_storage demo_gachas "en-US" ZZZ)
         = Ok r
       /\ r !! 1002 = Some "Nicole".
Proof.
  assert (Hfetch :
    @fetch_item_names demo_web "en-US" ZZZ =
    ([DbConnect; DbFetchval "zzz_item_names_en.json"; DbClose],
     Ok (<[1002 := "Nicole"]> (<[1001 := "Anby"]> ∅)))).
  { vm_compute. reflexivity. }
  split; [exact Hfetch|]. split; [right; now left|]. split; [reflexivity|].
  destruct (@get_gacha_names_fetched demo_web demo_storage demo_gachas "en-US"
              ZZZ _ _ {| item_id := 1002 |} Hfetch
              (or_intror (or_introl eq_refl)) eq_refl)
    as (r & Hrun & Hr & _).
  exists r. split; [now rewrite Hrun|].
  apply (Hr 1002); [right; now left|reflexivity].
Defined.

Lemma get_gacha_names_fetch_raises_witness :
  @fetch_item_names demo_web_down "en-US" ZZZ =
    ([DbConnect], Raise (ExternalError "connection refused"))
  /\ In {| item_id := 1002 |} demo_gachas
  /\ default ∅ (demo_storage !! gacha_names_key "en-US" ZZZ) !! str 1002
     = None
  /\ @get_gacha_names demo_web_down demo_storage demo_gachas "en-US" ZZZ =
     ([DbConnect], Raise (ExternalError "connection refused")).
Proof.
  split; [reflexivity|]. split; [right; now left|]. split; [reflexivity|].
  apply (@get_gacha_names_fetch_raises demo_web_down demo_storage demo_gachas
           "en-US" ZZZ [DbConnect] (ExternalError "connection refused")
           {| item_id := 1002 |}).
  - reflexivity.
  - right. now left.
  - reflexivity.
Defined.

Lemma get_gacha_names_second_call_witness :
  @fetch_item_names demo_web "en-US" ZZZ =
    ([DbConnect; DbFetchval "zzz_item_names_en.json"; DbClose],
     Ok (<[1002 := "Nicole"]> (<[1001 := "Anby"]> ∅)))
  /\ In {| item_id := 1002 |} demo_gachas
  /\ exists r2 : gmap Z string,
       @get_gacha_names demo_web
         (run_storage_tasks
            (fst (@get_gacha_names demo_web demo_storage demo_gachas
                    "en-US" ZZZ))
            demo_storage)
         demo_gachas "en-US" ZZZ = ([], Ok r2)
       /\ r2 !! 1001 = Some "Anby".
Proof.
  assert (Hfetch :
    @fetch_item_names demo_web "en-US" ZZZ =
    ([DbConnect; DbFetchval "zzz_item_names_en.json"; DbClose],
     Ok (<[1002 := "Nicole"]> (<[1001 := "Anby"]> ∅)))).
  { vm_compute. reflexivity. }
  split; [exact Hfetch|]. split; [right; now left|].
  destruct (@get_gacha_names_second_call demo_web demo_storage demo_gachas
              "en-US" ZZZ _ _ {| item_id := 1002 |} Hfetch
              (or_intror (or_introl eq_refl)) eq_refl)
    as (r & r2 & _ & Hrun2 & Htable & _).
  { intros g [<-|[<-|[<-|[]]]]; right; eexists; reflexivity. }
  exists r2. split; [exact Hrun2|].
  exact (Htable {| item_id := 1001 |} "Anby" (or_introl eq_refl) eq_refl).
Defined.

(** ** Repeated calls of [_draw_block] *)

Section RepeatedCalls.

Context `{Collaborators} `{ImageEngine}.



End RepeatedCalls.



(** With a cache in front of [Drawer.open_image] the engines are no
    functions of their arguments, and [_draw_block] is not repeatable: the
    second call for an empty slot draws on the cached object of the first,
    and both results end up with the placeholder pasted twice. *)
Example cached_engine_second_call_differs :
  let first :=
    @_draw_block_st (@cached_engine demo_collaborators) demo_card None
      (∅, ∅) in
  let second :=
    @_draw_block_st (@cached_engine demo_collaborators) demo_card None
      (snd first) in
  let empty_block := @_draw_block demo_collaborators demo_card None in
  snd (snd first) !! fst first = Some empty_block
  /\ snd (snd second) !! fst second =
     Some (paste empty_block
             (open_image "hoyo-buddy-assets/assets/apc-shadow/empty.png")
             (28, 28)
             (Some (open_image
                      "hoyo-buddy-assets/assets/apc-shadow/empty.png")))
  /\ snd (snd second) !! fst first <> Some empty_block.
Proof.
  cbv zeta. split; [vm_compute; reflexivity|].
  split; [vm_compute; reflexivity|]. vm_compute. discriminate.
Qed.

